(** * Forecasting dispatch pipeline of [backend/server.py]

    A shallow embedding of the prediction endpoint: [prepare_dataframe],
    the five [predict_*] strategies and the [predict_stock] dispatcher.

    Modelling conventions.
    - Python floats are exact rationals ([Qc]) extended with [NaN]; rounding
      is not modelled, so equalities proved here hold in exact arithmetic.
      Module [Binary64] repeats the smoothing strategy on IEEE binary64
      numbers, to tell which of these equalities rounding breaks.
    - A close column is a list of such floats.  This is the column pandas
      builds when some cell holds a number and the numbers are moderate
      ([numeric_column]).  A column of nulls only (kept as objects) is
      outside the model, and the wrap-around of an all-integer ([int64])
      column is confined to Module [Int64]; the statements that depend
      on either say so.
    - A pandas [Timestamp] is a day number (days since 1970-01-01) or [NaT];
      [strftime('%Y-%m-%d')] renders a day number and is kept abstract, so a
      forecast point carries the day number itself.  The 64-bit range of
      pandas timestamps is not modelled: a statement that promises a
      forecast for every horizon assumes its dates [representable].
    - Python exceptions are values of [exn]; code that can raise lives in
      the [result] monad.
    - Library code that the repository calls (pandas' date parser, the
      string form of an exception, the two optional forecasting libraries)
      enters as Section variables. *)

From Stdlib Require Import QArith Qcanon Qround Field ZArith Lia Ascii String.
From Stdlib Require PrimFloat.
From stdpp Require Import gmap strings list fin_maps sorting.

Open Scope Z_scope.

(** * Values, floats and exceptions *)

(** A JSON value as it can sit in a cell of a historical record. *)
Inductive value :=
| VNum (q : Qc)
| VStr (s : string)
| VNull.

(** A Python float: a rational or [nan]. *)
Inductive float :=
| Fin (q : Qc)
| NaN.

Definition flift2 (op : Qc -> Qc -> Qc) (x y : float) : float :=
  match x, y with
  | Fin a, Fin b => Fin (op a b)
  | _, _ => NaN
  end.

Definition fadd := flift2 Qcplus.
Definition fsub := flift2 Qcminus.
Definition fmul := flift2 Qcmult.
Definition fdiv := flift2 Qcdiv.

Declare Scope float_scope.
Delimit Scope float_scope with F.
Bind Scope float_scope with float.
Infix "+" := fadd : float_scope.
Infix "-" := fsub : float_scope.
Infix "*" := fmul : float_scope.
Infix "/" := fdiv : float_scope.

Definition Qc_of_nat (n : nat) : Qc := Qc_of_Z (Z.of_nat n).

(** An [int] used in float arithmetic. *)
Definition float_of_Z (z : Z) : float := Fin (Qc_of_Z z).

(** The exceptions the pipeline can raise.  [HTTPException] is FastAPI's;
    the others are Python's built-in ones and the errors of the libraries. *)
Inductive exn :=
| HTTPException (status_code : Z) (detail : string)
| KeyError (key : string)
| IndexError
| ValueError
| TypeError
| LibraryError (msg : string).

Inductive result (A : Type) :=
| Ok (a : A)
| Raise (e : exn).
Arguments Ok {A} a.
Arguments Raise {A} e.

Definition bind {A B} (m : result A) (k : A -> result B) : result B :=
  match m with
  | Ok a => k a
  | Raise e => Raise e
  end.

Notation "x <- m ;; k" := (bind m (fun x => k))
  (at level 200, m at level 99, k at level 200, right associativity).

Fixpoint mapM {A B} (f : A -> result B) (l : list A) : result (list B) :=
  match l with
  | [] => Ok []
  | x :: l' => y <- f x ;; ys <- mapM f l' ;; Ok (y :: ys)
  end.

(** * Python sequence operations *)

(** [l[i]] with Python's negative indices; out of range raises. *)
Definition getitem {A} (l : list A) (i : Z) : result A :=
  let n := Z.of_nat (length l) in
  let j := if i <? 0 then n + i else i in
  if (0 <=? j) && (j <? n) then
    match l !! Z.to_nat j with
    | Some x => Ok x
    | None => Raise IndexError
    end
  else Raise IndexError.

(** [l[:k]]: a negative [k] counts from the end. *)
Definition slice_to {A} (l : list A) (k : Z) : list A :=
  if 0 <=? k then take (Z.to_nat k) l
  else take (length l - Z.to_nat (- k))%nat l.

(** [range(a, b)] *)
Definition range (a b : Z) : list Z := seqZ a (b - a).

(** [df.tail(k)] on the rows. *)
Definition tail_rows {A} (k : nat) (l : list A) : list A :=
  drop (length l - k)%nat l.

Definition fsum (l : list float) : float := foldr fadd (Fin 0%Qc) l.
Definition Qcsum (l : list Qc) : Qc := foldr Qcplus 0%Qc l.

(** * Timestamps *)

Inductive Timestamp :=
| TS (day : Z)
| NaT.

(** [t + timedelta(days=k)] *)
Definition add_days (t : Timestamp) (k : Z) : Timestamp :=
  match t with
  | TS d => TS (d + k)
  | NaT => NaT
  end.

(** [t.strftime('%Y-%m-%d')]: [NaT] does not support it. *)
Definition strftime (t : Timestamp) : result Z :=
  match t with
  | TS d => Ok d
  | NaT => Raise ValueError
  end.

(** Ascending order used by [sort_values]; [NaT] goes last. *)
Definition ts_leb (a b : Timestamp) : bool :=
  match a, b with
  | TS x, TS y => x <=? y
  | _, NaT => true
  | NaT, TS _ => false
  end.

(** [a > b] on timestamps: any comparison with [NaT] is false. *)
Definition ts_gtb (a b : Timestamp) : bool :=
  match a, b with
  | TS x, TS y => y <? x
  | _, _ => false
  end.

(** [Series.max()] skips [NaT]; an all-[NaT] (or empty) column gives [NaT]. *)
Definition ts_max (a b : Timestamp) : Timestamp :=
  match a, b with
  | TS x, TS y => TS (Z.max x y)
  | TS x, NaT => TS x
  | NaT, b => b
  end.

(** * Data frames *)

(** One row of the frame: the converted [date] cell and the record the row
    was built from, which holds every other column. *)
Record Row := { date : Timestamp; record : gmap string value }.

(** A frame knows its column names (the union of the records' keys) and
    its rows. *)
Record DataFrame := { columns : gset string; rows : list Row }.

(** [len(df)] *)
Definition len (df : DataFrame) : nat := length (rows df).

(** [df.tail(k)] keeps the columns. *)
Definition tail (k : nat) (df : DataFrame) : DataFrame :=
  {| columns := columns df; rows := tail_rows k (rows df) |}.

(** [df['date'].max()] *)
Definition date_max (df : DataFrame) : Timestamp :=
  foldr ts_max NaT (date <$> rows df).

(** A cell of the [close] column as a float: a number is itself, a missing
    or null cell is [nan], and a string makes the column non-numeric, on
    which every arithmetic use raises.  The null cells are [nan] as soon as
    the column holds a number; pandas keeps a column of nulls only as
    objects, which the model does not represent. *)
Definition close_cell (r : Row) : result float :=
  match record r !! "close" with
  | Some (VNum q) => Ok (Fin q)
  | Some VNull | None => Ok NaN
  | Some (VStr _) => Raise TypeError
  end.

(** [df['close'].values] *)
Definition close_values (df : DataFrame) : result (list float) :=
  if decide ("close" ∈ columns df) then mapM close_cell (rows df)
  else Raise (KeyError "close").

(** Insertion of a row into a list sorted by date. *)
Fixpoint insert_row (r : Row) (l : list Row) : list Row :=
  match l with
  | [] => [r]
  | r' :: l' => if ts_leb (date r) (date r') then r :: l else r' :: insert_row r l'
  end.

(** [df.sort_values('date')] on the rows.  No theorem below depends on the
    relative order of rows with equal dates. *)
Definition sort_values (l : list Row) : list Row := foldr insert_row [] l.

(** * Forecast points *)

(** One entry of the [predictions] list: [{'date': ..., 'close': ...}]. *)
Record ForecastPoint := { p_date : Z; p_close : float }.

Fixpoint foldM {A B} (f : A -> B -> result A) (a : A) (l : list B) : result A :=
  match l with
  | [] => Ok a
  | x :: l' => a' <- f a x ;; foldM f a' l'
  end.

(** [enumerate(l)] *)
Definition enumerate {A} (l : list A) : list (Z * A) :=
  zip (range 0 (Z.of_nat (length l))) l.

(** The body shared by the three prediction loops:
    [pred_date = last_date + timedelta(days=i+1)] and the appended dict. *)
Definition make_point (last_date : Timestamp) (i : Z) (v : float) : result ForecastPoint :=
  d <- strftime (add_days last_date (i + 1)) ;;
  Ok {| p_date := d; p_close := v |}.

(** * Linear regression *)

(** sklearn's [LinearRegression] on one feature, by the closed form of
    ordinary least squares.  [fit] rejects [nan] and an empty sample; a
    sample whose feature does not vary gets the minimum-norm solution,
    slope [0]. *)
Record LinearRegression := { coef_ : Qc; intercept_ : Qc }.

Definition finite_value (x : float) : result Qc :=
  match x with
  | Fin q => Ok q
  | NaN => Raise ValueError
  end.

Definition mean (l : list Qc) : Qc := (Qcsum l / Qc_of_nat (length l))%Qc.

Definition sxx (xbar : Qc) (xs : list Qc) : Qc :=
  Qcsum ((fun x => (x - xbar) * (x - xbar))%Qc <$> xs).

Definition sxy (xbar ybar : Qc) (xs ys : list Qc) : Qc :=
  Qcsum (zip_with (fun x y => (x - xbar) * (y - ybar))%Qc xs ys).

Definition fit (X : list Z) (y : list float) : result LinearRegression :=
  ys <- mapM finite_value y ;;
  match X with
  | [] => Raise ValueError
  | _ =>
    let xs := Qc_of_Z <$> X in
    let xbar := mean xs in
    let ybar := mean ys in
    let coef := if decide (sxx xbar xs = 0%Qc) then 0%Qc
                else (sxy xbar ybar xs ys / sxx xbar xs)%Qc in
    Ok {| coef_ := coef; intercept_ := (ybar - coef * xbar)%Qc |}
  end.

(** [model.predict]: an empty list of future days is a 1-D empty array,
    which sklearn refuses. *)
Definition predict (m : LinearRegression) (X : list Z) : result (list float) :=
  match X with
  | [] => Raise ValueError
  | _ => Ok ((fun x => Fin (intercept_ m + coef_ m * Qc_of_Z x)%Qc) <$> X)
  end.

Definition predict_linear_regression (df : DataFrame) (days : Z)
  : result (list ForecastPoint) :=
  (* Use last 60 days for training *)
  let df_train := tail 60 df in
  let X := range 0 (Z.of_nat (len df_train)) in
  y <- close_values df_train ;;
  model <- fit X y ;;
  (* Predict future *)
  let last_day := Z.of_nat (len df_train) in
  let future_days := (fun i => last_day + i) <$> range 1 (days + 1) in
  predictions_values <- predict model future_days ;;
  (* Generate dates *)
  let last_date := date_max df in
  mapM (fun ip => make_point last_date (fst ip) (snd ip))
       (enumerate predictions_values).

(** * Exponential smoothing ("lstm") *)

Definition alpha : Qc := Q2Qc (3 # 10).

(** One iteration of the smoothing loop:
    [smoothed.append(alpha * prices[i] + (1 - alpha) * smoothed[-1])]. *)
Definition smooth_step (prices smoothed : list float) (i : Z) : result (list float) :=
  p <- getitem prices i ;;
  s <- getitem smoothed (-1) ;;
  Ok (smoothed ++ [Fin alpha * p + (Fin 1%Qc - Fin alpha) * s]%F).

(** The smoothing loop, starting from [smoothed = [prices[0]]]. *)
Definition smoothing (prices : list float) : result (list float) :=
  p0 <- getitem prices 0 ;;
  foldM (smooth_step prices) [p0] (range 1 (Z.of_nat (length prices))).

(** [trend = (smoothed[-1] - smoothed[-20]) / 20] *)
Definition lstm_trend (smoothed : list float) : result float :=
  s1 <- getitem smoothed (-1) ;;
  s20 <- getitem smoothed (-20) ;;
  Ok ((s1 - s20) / float_of_Z 20)%F.

Definition predict_lstm (df : DataFrame) (days : Z) : result (list ForecastPoint) :=
  (* Use exponential smoothing as a proxy *)
  prices <- close_values df ;;
  smoothed <- smoothing prices ;;
  (* Predict future *)
  let last_date := date_max df in
  last_value <- getitem smoothed (-1) ;;
  (* Simple trend continuation *)
  trend <- lstm_trend smoothed ;;
  mapM (fun i => make_point last_date i (last_value + trend * float_of_Z (i + 1))%F)
       (range 0 days).

(** * Moving average ("arima") *)

Definition window : Z := 20.

Definition fmean (l : list float) : float :=
  (fsum l / float_of_Z (Z.of_nat (length l)))%F.

(** [pd.Series(prices).rolling(window=w).mean()]: position [j] holds the
    mean of the [w] values ending at [j], and [nan] while fewer than [w]
    values are available (or when one of them is [nan]). *)
Definition rolling_mean (w : Z) (prices : list float) : list float :=
  (fun j => if j + 1 <? w then NaN
            else fmean (take (Z.to_nat w) (drop (Z.to_nat (j + 1 - w)) prices)))
    <$> range 0 (Z.of_nat (length prices)).

(** [last_ma = ma.iloc[-1]] *)
Definition last_moving_average (prices : list float) : result float :=
  getitem (rolling_mean window prices) (-1).

(** [trend = (prices[-1] - prices[-window]) / window].  The subtraction
    is exact here; on an all-integer column numpy subtracts in [int64],
    which agrees as long as the closes are [moderate]. *)
Definition arima_trend (prices : list float) : result float :=
  p1 <- getitem prices (-1) ;;
  pw <- getitem prices (- window) ;;
  Ok ((p1 - pw) / float_of_Z window)%F.

Definition predict_arima (df : DataFrame) (days : Z) : result (list ForecastPoint) :=
  prices <- close_values df ;;
  (* Calculate moving average *)
  last_ma <- last_moving_average prices ;;
  (* Simple trend *)
  trend <- arima_trend prices ;;
  let last_date := date_max df in
  mapM (fun i => make_point last_date i (last_ma + trend * float_of_Z (i + 1))%F)
       (range 0 days).

(** * The request and the response *)

Record PredictionRequest := {
  symbol : string;
  model : string;
  days : Z;
  historical : list (gmap string value)
}.

(** The dict returned by [predict_stock]. *)
Record Response := {
  r_symbol : string;
  r_model : string;
  predictions : list ForecastPoint
}.

(** What an optional forecasting library does with the [(ds, y)] frame and
    the horizon: model construction, [fit], [make_future_dataframe] and
    [predict] in one step, giving the [(ds, yhat)] rows of the forecast or
    raising. *)
Definition Forecaster : Type :=
  list (Timestamp * option value) -> Z -> result (list (Timestamp * float)).

(** [df[['date', 'close']].copy()] renamed to [ds], [y]; the cells of [y]
    are handed over as they are. *)
Definition date_close (df : DataFrame) : result (list (Timestamp * option value)) :=
  if decide ("close" ∈ columns df)
  then Ok ((fun r => (date r, record r !! "close")) <$> rows df)
  else Raise (KeyError "close").

Section Pipeline.

(** [pd.to_datetime] on one non-null cell: the day it denotes, or [None]
    when it cannot be parsed. *)
Variable to_datetime : value -> option Z.

(** [str(e)] *)
Variable exn_str : exn -> string.

(** The two optional imports; [None] after an [ImportError]. *)
Variable NeuralProphet : option Forecaster.
Variable Prophet : option Forecaster.

(** [pd.to_datetime] on a cell of the [date] column: a missing or null
    cell becomes [NaT]. *)
Definition to_datetime_cell (c : option value) : result Timestamp :=
  match c with
  | None | Some VNull => Ok NaT
  | Some v =>
    match to_datetime v with
    | Some d => Ok (TS d)
    | None => Raise ValueError
    end
  end.

Definition prepare_dataframe (historical : list (gmap string value))
  : result DataFrame :=
  (* df = pd.DataFrame(historical) *)
  let cols : gset string := ⋃ (dom <$> historical) in
  (* df['date'] = pd.to_datetime(df['date']) *)
  if decide ("date" ∈ cols) then
    rs <- mapM (fun r => d <- to_datetime_cell (r !! "date") ;;
                         Ok {| date := d; record := r |}) historical ;;
    (* df = df.sort_values('date') *)
    Ok {| columns := cols; rows := sort_values rs |}
  else Raise (KeyError "date").

(** The [try] block of the two advanced strategies: keep the forecast
    rows after the last historical date and cut to [days] entries. *)
Definition forecast_with (lib : Forecaster) (df : DataFrame) (days : Z)
  : result (list ForecastPoint) :=
  prophet_df <- date_close df ;;
  forecast <- lib prophet_df days ;;
  let last_historical_date := date_max df in
  predictions <-
    mapM (fun row => d <- strftime (fst row) ;;
                     Ok {| p_date := d; p_close := snd row |})
         (List.filter (fun row => ts_gtb (fst row) last_historical_date) forecast) ;;
  Ok (slice_to predictions days).

Definition predict_neural_prophet (df : DataFrame) (days : Z)
  : result (list ForecastPoint) :=
  match NeuralProphet with
  | None => predict_linear_regression df days
  | Some lib =>
    match forecast_with lib df days with
    | Ok predictions => Ok predictions
    | Raise e => predict_linear_regression df days
    end
  end.

Definition predict_prophet (df : DataFrame) (days : Z)
  : result (list ForecastPoint) :=
  match Prophet with
  | None => predict_linear_regression df days
  | Some lib =>
    match forecast_with lib df days with
    | Ok predictions => Ok predictions
    | Raise e => predict_linear_regression df days
    end
  end.

(** The [try] block of [predict_stock]. *)
Definition predict_stock_try (request : PredictionRequest) : result Response :=
  df <- prepare_dataframe (historical request) ;;
  if (len df <? 30)%nat then
    Raise (HTTPException 400 "Insufficient historical data")
  else
    predictions <-
      (* Route to appropriate model *)
      (if String.eqb (model request) "neural_prophet" then
         predict_neural_prophet df (days request)
       else if String.eqb (model request) "prophet" then
         predict_prophet df (days request)
       else if String.eqb (model request) "lstm" then
         predict_lstm df (days request)
       else if String.eqb (model request) "arima" then
         predict_arima df (days request)
       else if String.eqb (model request) "linear_regression" then
         predict_linear_regression df (days request)
       else Raise (HTTPException 400 "Invalid model")) ;;
    Ok {| r_symbol := symbol request;
          r_model := model request;
          predictions := predictions |}.

(** [predict_stock]: whatever the [try] block raises, [HTTPException]
    included, is caught by [except Exception] and raised again as an
    [HTTPException] with status 500. *)
Definition predict_stock (request : PredictionRequest) : result Response :=
  match predict_stock_try request with
  | Ok response => Ok response
  | Raise e => Raise (HTTPException 500 (exn_str e))
  end.

End Pipeline.

(** * A concrete runtime

    Instances of the Section variables used to run the pipeline on concrete
    requests: a parser for [YYYY-MM-DD] strings, the string form of an
    exception as Starlette and Python print it, and two runtimes, one
    without the optional libraries and one with a stand-in for them. *)

Definition digit (a : ascii) : option Z :=
  let n := Z.of_nat (nat_of_ascii a) - 48 in
  if (0 <=? n) && (n <=? 9) then Some n else None.

(** Days since 1970-01-01 of a proleptic Gregorian date. *)
Definition days_from_civil (y m d : Z) : Z :=
  let y' := if m <=? 2 then y - 1 else y in
  let era := y' / 400 in
  let yoe := y' - era * 400 in
  let doy := (153 * (if 2 <? m then m - 3 else m + 9) + 2) / 5 + d - 1 in
  let doe := yoe * 365 + yoe / 4 - yoe / 100 + doy in
  era * 146097 + doe - 719468.

Definition iso_date (s : string) : option Z :=
  match s with
  | String y1 (String y2 (String y3 (String y4 (String "-"
      (String m1 (String m2 (String "-" (String d1 (String d2 EmptyString))))))))) =>
    match digit y1, digit y2, digit y3, digit y4,
          digit m1, digit m2, digit d1, digit d2 with
    | Some a, Some b, Some c, Some e, Some f, Some g, Some h, Some i =>
      let y := 1000 * a + 100 * b + 10 * c + e in
      let m := 10 * f + g in
      let d := 10 * h + i in
      if (1 <=? m) && (m <=? 12) && (1 <=? d) && (d <=? 31)
      then Some (days_from_civil y m d) else None
    | _, _, _, _, _, _, _, _ => None
    end
  | _ => None
  end.

Definition iso_to_datetime (v : value) : option Z :=
  match v with
  | VStr s => iso_date s
  | _ => None
  end.

Definition status_text (status_code : Z) : string :=
  if status_code =? 400 then "400"
  else if status_code =? 500 then "500"
  else "".

Definition py_str (e : exn) : string :=
  match e with
  | HTTPException status_code detail => status_text status_code +:+ ": " +:+ detail
  | KeyError key => "'" +:+ key +:+ "'"
  | LibraryError msg => msg
  | _ => ""
  end.

(** A stand-in for an installed forecasting library: the history followed
    by [days] daily rows that repeat the value [1]. *)
Definition flat_forecaster : Forecaster :=
  fun frame days =>
    let last := foldr ts_max NaT (fst <$> frame) in
    Ok (((fun row => (fst row, Fin 1%Qc)) <$> frame)
          ++ ((fun k => (add_days last k, Fin 1%Qc)) <$> range 1 (days + 1))).

(** A record [{'date': d, 'close': c}]. *)
Definition candle (d : string) (c : Qc) : gmap string value :=
  {[ "date" := VStr d; "close" := VNum c ]}.

Definition two_digits (n : Z) : string :=
  String (ascii_of_nat (Z.to_nat (48 + n / 10)))
    (String (ascii_of_nat (Z.to_nat (48 + n mod 10))) EmptyString).

(** January and February 2024 as date strings, day [k] counted from 0. *)
Definition date_2024 (k : Z) : string :=
  if k <? 31 then "2024-01-" +:+ two_digits (k + 1)
  else "2024-02-" +:+ two_digits (k - 30).

(** The closes [0, 1, ..., n - 1]. *)
Definition ramp (n : Z) : list Qc := Qc_of_Z <$> seqZ 0 n.

(** [n] daily candles from 2024-01-01 on whose closes are [f 0], [f 1], ... *)
Definition candles (n : Z) (f : Z -> Qc) : list (gmap string value) :=
  (fun k => candle (date_2024 k) (f k)) <$> range 0 n.

(** 60 closes on the line [close = index]. *)
Definition ramp60 : list (gmap string value) := candles 60 Qc_of_Z.

(** 30 closes on the line [close = index]. *)
Definition ramp30 : list (gmap string value) := candles 30 Qc_of_Z.

(** 30 closes all equal to 5. *)
Definition flat30 : list (gmap string value) := candles 30 (fun _ => Qc_of_Z 5).

(** A single candle. *)
Definition one_candle : list (gmap string value) := candles 1 Qc_of_Z.

(** A record with a date and no close. *)
Definition no_close : list (gmap string value) :=
  [ {[ "date" := VStr "2024-01-02" ]} ].

(** A record without a date next to one that has it. *)
Definition one_undated : list (gmap string value) :=
  [ candle "2024-01-02" (Qc_of_Z 1); {[ "close" := VNum (Qc_of_Z 2) ]} ].

Definition request (m : string) (n : Z) (h : list (gmap string value))
  : PredictionRequest :=
  {| symbol := "AAPL"; model := m; days := n; historical := h |}.

(** [frame_of h]: the prepared series of the records [h] under the
    concrete runtime (the empty frame when preparation fails). *)
Definition frame_of (h : list (gmap string value)) : DataFrame :=
  match prepare_dataframe iso_to_datetime h with
  | Ok df => df
  | Raise _ => {| columns := ∅; rows := [] |}
  end.

(** * The statements of the specification *)

(** The five model names the dispatcher routes. *)
Definition recognized (m : string) : Prop :=
  m ∈ ["neural_prophet"; "prophet"; "lstm"; "arima"; "linear_regression"].

Definition fails {A} (m : result A) : Prop := exists e, m = Raise e.

(** [smoothed[i]] by the recurrence of the specification, with the
    factors 0.3 and 0.7 written out. *)
Fixpoint spec_smoothed (price : list Qc) (i : nat) : Qc :=
  match i with
  | O => nth 0 price 0%Qc
  | S j => (Q2Qc (3 # 10) * nth (S j) price 0 + Q2Qc (7 # 10) * spec_smoothed price j)%Qc
  end.

(** The first [k] smoothed values, as the floats the loop holds. *)
Definition spec_smoothed_list (price : list Qc) (k : nat) : list float :=
  (fun i => Fin (spec_smoothed price i)) <$> seq 0 k.

(** [(series[last] - series[last - back]) / 20] *)
Definition spec_trend (series : nat -> Qc) (last back : nat) : Qc :=
  ((series last - series (last - back)%nat) / Qc_of_Z 20)%Qc.

(** The mean of the last 20 prices. *)
Definition spec_moving_average (price : list Qc) : Qc :=
  (Qcsum (drop (length price - 20)%nat price) / Qc_of_Z 20)%Qc.

(** Future point [i] (counted from 1) is [base + trend * i], dated [i]
    days after the last historical date [d0]. *)
Definition spec_forecast (d0 : Z) (base trend : Qc) (days : Z) : list ForecastPoint :=
  (fun i => {| p_date := d0 + i; p_close := Fin (base + trend * Qc_of_Z i)%Qc |})
    <$> seqZ 1 days.

(** A record carries a date that [to_datetime] can parse. *)
Definition parseable_date (to_datetime : value -> option Z) (r : gmap string value) : Prop :=
  exists v d, r !! "date" = Some v /\ v <> VNull /\ to_datetime v = Some d.

(** A record carries a date that [to_datetime] cannot parse. *)
Definition unparseable_date (to_datetime : value -> option Z) (r : gmap string value) : Prop :=
  exists v, r !! "date" = Some v /\ v <> VNull /\ to_datetime v = None.

(** A record carries a number in its close field. *)
Definition numeric_close (r : gmap string value) : Prop :=
  exists q, r !! "close" = Some (VNum q).

(** Some record misses a parseable date or a numeric close. *)
Definition spec_malformed (to_datetime : value -> option Z)
    (h : list (gmap string value)) : Prop :=
  Exists (fun r => ~ parseable_date to_datetime r \/ ~ numeric_close r) h.


(** The day a timestamp denotes ([0] for [NaT]). *)
Definition day_of (t : Timestamp) : Z :=
  match t with
  | TS d => d
  | NaT => 0
  end.

Definition with_model (m : string) (request : PredictionRequest) : PredictionRequest :=
  {| symbol := symbol request; model := m;
     days := days request; historical := historical request |}.

(** The same outcome with the [model] field of the response set to [m]. *)
Definition relabel (m : string) (res : result Response) : result Response :=
  match res with
  | Ok r => Ok {| r_symbol := r_symbol r; r_model := m; predictions := predictions r |}
  | Raise e => Raise e
  end.

(** * Notions used by the further properties *)

(** The value the smoothing loop appends after the smoothed value [s] for
    the price [p]. *)
Definition smooth_next (s p : float) : float :=
  (Fin alpha * p + (Fin 1%Qc - Fin alpha) * s)%F.

(** The values the smoothing loop appends for the prices [ps] when the
    last smoothed value is [s]. *)
Fixpoint smooth_from (s : float) (ps : list float) : list float :=
  match ps with
  | [] => []
  | p :: ps' => smooth_next s p :: smooth_from (smooth_next s p) ps'
  end.

(** The points of a strategy that returned (none when it raised). *)
Definition points_of (res : result (list ForecastPoint)) : list ForecastPoint :=
  match res with
  | Ok preds => preds
  | Raise _ => []
  end.

(** A forecast whose closes are all [nan], on the [days] days after [d0]. *)
Definition nan_forecast (d0 days : Z) : list ForecastPoint :=
  (fun k => {| p_date := d0 + k; p_close := NaN |}) <$> seqZ 1 days.

(** A record with a date and no close field: its close cell is [nan]. *)
Definition gap_record (d : string) : gmap string value :=
  {[ "date" := VStr d ]}.

(** 29 candles with closes 0 .. 28 followed by one record without close. *)
Definition ramp_then_gap : list (gmap string value) :=
  candles 29 Qc_of_Z ++ [ gap_record "2024-01-30" ].

(** 19 candles with closes 0 .. 18. *)
Definition ramp19 : list (gmap string value) := candles 19 Qc_of_Z.

(** The change of unit and origin [p -> s * p + c] of a price. *)
Definition affine (s c p : Qc) : Qc := (s * p + c)%Qc.

(** The same change applied to the close of a forecast point. *)
Definition affine_point (s c : Qc) (p : ForecastPoint) : ForecastPoint :=
  {| p_date := p_date p; p_close := (Fin s * p_close p + Fin c)%F |}.

(** The 30 candles of [ramp30] after the change [p -> 2 * p + 3]. *)
Definition ramp30_affine : list (gmap string value) :=
  candles 30 (fun k => affine (Qc_of_Z 2) (Qc_of_Z 3) (Qc_of_Z k)).

(** 30 candles that agree with [ramp30] on the last 20 closes only. *)
Definition ramp30_other_start : list (gmap string value) :=
  candles 30 (fun k => if k <? 10 then Qc_of_Z 100 else Qc_of_Z k).

(** The close column that was read (empty when reading raised). *)
Definition closes_of (res : result (list float)) : list float :=
  match res with
  | Ok prices => prices
  | Raise _ => []
  end.

(** A stand-in for an installed library whose fit fails. *)
Definition failing_forecaster : Forecaster :=
  fun _ _ => Raise (LibraryError "fit failed").

(** Every point lies after the last historical date of the frame. *)
Definition dated_after (df : DataFrame) (preds : list ForecastPoint) : Prop :=
  forall p, p ∈ preds -> exists d0, date_max df = TS d0 /\ d0 < p_date p.

(** The response of a request that succeeded (no points when it failed). *)
Definition response_points (res : result Response) : list ForecastPoint :=
  match res with
  | Ok r => predictions r
  | Raise _ => []
  end.

(** The dict a request returned (an empty one when it raised). *)
Definition response_of (res : result Response) : Response :=
  match res with
  | Ok r => r
  | Raise _ => {| r_symbol := ""; r_model := ""; predictions := [] |}
  end.

(** The order [sort_values] establishes on rows: by date, [NaT] last. *)
Definition date_le (a b : Row) : Prop := ts_leb (date a) (date b) = true.

(** The request with another list of historical records. *)
Definition with_historical (h : list (gmap string value))
    (request : PredictionRequest) : PredictionRequest :=
  {| symbol := symbol request; model := model request;
     days := days request; historical := h |}.

(** The candles of [ramp30] in reverse order. *)
Definition ramp30_reversed : list (gmap string value) := reverse ramp30.

(** * The market-data endpoints *)

(** The dict returned by [finnhub_client.stock_candles]: the status [s]
    and the parallel arrays [t], [o], [h], [l], [c], [v], each of them
    present or not (a reply without data carries the status only). *)
Record StockCandles := {
  res_s : option string;
  res_t : option (list value);
  res_o : option (list value);
  res_h : option (list value);
  res_l : option (list value);
  res_c : option (list value);
  res_v : option (list value)
}.

(** [res[key]] on such a dict. *)
Definition item {A} (key : string) (field : option A) : result A :=
  match field with
  | Some x => Ok x
  | None => Raise (KeyError key)
  end.

(** [quote[key]] on a plain dict. *)
Definition dict_item (d : gmap string value) (key : string) : result value :=
  match d !! key with
  | Some x => Ok x
  | None => Raise (KeyError key)
  end.

(** The dict returned by [get_historical_data]. *)
Record HistoricalResponse := {
  h_symbol : string;
  h_historical : list (gmap string value)
}.

(** The dict returned by [get_current_price]. *)
Record PriceResponse := {
  q_symbol : string;
  q_price : value;
  q_change : value;
  q_percent_change : value;
  q_timestamp : string
}.

Section Market.

(** [str(e)] *)
Variable exn_str : exn -> string.

(** [datetime.fromtimestamp(x).strftime('%Y-%m-%d')] on a number: the
    local date as a string, or the exception of an out-of-range stamp. *)
Variable fromtimestamp : Qc -> result string.

(** The two calls of the Finnhub client. *)
Variable stock_candles : string -> string -> Z -> Z -> result StockCandles.
Variable quote : string -> result (gmap string value).

(** The clock: [int(start_date.timestamp())], [int(end_date.timestamp())]
    and [datetime.now().isoformat()]. *)
Variable start_ts : Z.
Variable end_ts : Z.
Variable now_isoformat : string.

Definition get_current_price_try (symbol : string) : result PriceResponse :=
  q <- quote symbol ;;
  c <- dict_item q "c" ;;
  d <- dict_item q "d" ;;
  dp <- dict_item q "dp" ;;
  Ok {| q_symbol := symbol; q_price := c; q_change := d;
        q_percent_change := dp; q_timestamp := now_isoformat |}.

Definition get_current_price (symbol : string) : result PriceResponse :=
  match get_current_price_try symbol with
  | Ok response => Ok response
  | Raise e => Raise (HTTPException 500 (exn_str e))
  end.

(** The date of one stamp; a stamp that is not a number is a [TypeError]. *)
Definition date_string (x : value) : result string :=
  match x with
  | VNum q => fromtimestamp q
  | _ => Raise TypeError
  end.

(** The dict appended for index [i], its values evaluated in the order
    they are written. *)
Definition historical_record (res : StockCandles) (i : Z)
  : result (gmap string value) :=
  t <- item "t" (res_t res) ;; ti <- getitem t i ;; d <- date_string ti ;;
  o <- item "o" (res_o res) ;; oi <- getitem o i ;;
  h <- item "h" (res_h res) ;; hi <- getitem h i ;;
  l <- item "l" (res_l res) ;; li <- getitem l i ;;
  c <- item "c" (res_c res) ;; ci <- getitem c i ;;
  v <- item "v" (res_v res) ;; vi <- getitem v i ;;
  Ok {[ "date" := VStr d; "open" := oi; "high" := hi;
        "low" := li; "close" := ci; "volume" := vi ]}.

Definition get_historical_data_try (symbol : string) : result HistoricalResponse :=
  (* Fetch candle data *)
  res <- stock_candles symbol "D" start_ts end_ts ;;
  s <- item "s" (res_s res) ;;
  if negb (String.eqb s "ok") then
    Raise (HTTPException 404 "No data found")
  else
    (* Convert to list of dicts *)
    t <- item "t" (res_t res) ;;
    historical <- mapM (historical_record res) (range 0 (Z.of_nat (length t))) ;;
    Ok {| h_symbol := symbol; h_historical := historical |}.

Definition get_historical_data (symbol : string) : result HistoricalResponse :=
  match get_historical_data_try symbol with
  | Ok response => Ok response
  | Raise e => Raise (HTTPException 500 (exn_str e))
  end.

End Market.

(** * A concrete market *)

Definition four_digits (n : Z) : string :=
  two_digits (n / 100) +:+ two_digits (n mod 100).

(** The proleptic Gregorian date of a day number, as [YYYY-MM-DD]. *)
Definition civil_from_days (z : Z) : result string :=
  let z' := z + 719468 in
  let era := z' / 146097 in
  let doe := z' - era * 146097 in
  let yoe := (doe - doe / 1460 + doe / 36524 - doe / 146096) / 365 in
  let doy := doe - (365 * yoe + yoe / 4 - yoe / 100) in
  let mp := (5 * doy + 2) / 153 in
  let d := doy - (153 * mp + 2) / 5 + 1 in
  let m := if mp <? 10 then mp + 3 else mp - 9 in
  let y := yoe + era * 400 + (if m <=? 2 then 1 else 0) in
  if (1 <=? y) && (y <=? 9999)
  then Ok (four_digits y +:+ "-" +:+ two_digits m +:+ "-" +:+ two_digits d)
  else Raise ValueError.

(** [fromtimestamp] for a process that runs in UTC. *)
Definition utc_date (q : Qc) : result string :=
  civil_from_days (Qfloor q / 86400).

Definition nums (l : list Z) : list value := (fun z => VNum (Qc_of_Z z)) <$> l.

(** Three daily candles, 2024-01-01 to 2024-01-03. *)
Definition three_candles : StockCandles :=
  {| res_s := Some "ok";
     res_t := Some (nums [1704067200; 1704153600; 1704240000]);
     res_o := Some (nums [10; 11; 12]);
     res_h := Some (nums [12; 13; 14]);
     res_l := Some (nums [9; 10; 11]);
     res_c := Some (nums [11; 12; 13]);
     res_v := Some (nums [1000; 1100; 1200]) |}.

(** The same reply with the last close missing from its array. *)
Definition short_closes : StockCandles :=
  {| res_s := Some "ok";
     res_t := res_t three_candles;
     res_o := res_o three_candles;
     res_h := res_h three_candles;
     res_l := res_l three_candles;
     res_c := Some (nums [11; 12]);
     res_v := res_v three_candles |}.

(** The reply for a symbol without data. *)
Definition no_data : StockCandles :=
  {| res_s := Some "no_data"; res_t := None; res_o := None; res_h := None;
     res_l := None; res_c := None; res_v := None |}.

(** A client that knows two symbols. *)
Definition demo_candles (symbol resolution : string) (from to : Z)
  : result StockCandles :=
  if String.eqb symbol "AAPL" then Ok three_candles
  else if String.eqb symbol "SHORT" then Ok short_closes
  else Ok no_data.

Definition demo_quote (symbol : string) : result (gmap string value) :=
  if String.eqb symbol "AAPL"
  then Ok {[ "c" := VNum (Qc_of_Z 190); "d" := VNum (Qc_of_Z 2);
             "dp" := VNum (Qc_of_Z 1); "h" := VNum (Qc_of_Z 191) ]}
  else Ok {[ "c" := VNum (Qc_of_Z 0) ]}.

(** [str(e)] with every status code printed. *)
Definition http_str (e : exn) : string :=
  match e with
  | HTTPException status_code detail =>
    String (ascii_of_nat (Z.to_nat (48 + status_code / 100)))
      (two_digits (status_code mod 100)) +:+ ": " +:+ detail
  | _ => py_str e
  end.

Definition demo_history (symbol : string) : result HistoricalResponse :=
  get_historical_data http_str utc_date demo_candles 1672531200 1704067200 symbol.

Definition demo_price (symbol : string) : result PriceResponse :=
  get_current_price http_str demo_quote "2024-01-04T10:00:00" symbol.

(** Entry [i] of an array of the reply, when the array is there and long
    enough. *)
Definition column_at (field : option (list value)) (i : nat) : option value :=
  match field with
  | Some l => l !! i
  | None => None
  end.

(** Every stamp of the reply is a number that [fromtimestamp] can date. *)
Definition stamps_dated (fromtimestamp : Qc -> result string) (t : list value) : Prop :=
  Forall (fun x => exists q d, x = VNum q /\ fromtimestamp q = Ok d) t.

(** The response of a call that succeeded (an empty one when it failed). *)
Definition history_of (res : result HistoricalResponse) : HistoricalResponse :=
  match res with
  | Ok r => r
  | Raise _ => {| h_symbol := ""; h_historical := [] |}
  end.

(** [n] daily records from 2024-01-01 on that carry a date and an open
    price but no close. *)
Definition closeless (n : Z) : list (gmap string value) :=
  (fun k => {[ "date" := VStr (date_2024 k); "open" := VNum (Qc_of_Z k) ]})
    <$> range 0 n.

(** * Where the model is the program

    The model computes with exact rationals and unbounded day numbers.
    The notions below delimit the inputs on which this is what pandas and
    numpy do, up to the rounding of binary64. *)

(** pandas holds a [Timestamp] in 64 bits of nanoseconds since 1970, from
    1677-09-21 00:12:43 to 2262-04-11 23:47:16, so the days from 1677-09-22
    (day -106751) to 2262-04-10 (day 106750) are representable at any time
    of day; beyond them [last_date + timedelta(days=k)] raises. *)
Definition timestamp_min_day : Z := -106751.
Definition timestamp_max_day : Z := 106750.

Definition representable (d : Z) : Prop :=
  timestamp_min_day <= d /\ d <= timestamp_max_day.

(** A close of magnitude at most 2^53.  An [int64] column and a
    [float64] column hold such a number alike (every integer up to 2^53
    is a binary64 number), and the difference of two of them stays inside
    64 bits: pandas keeps an all-integer column as [int64], on which
    [prices[-1] - prices[-window]] wraps around, and integers beyond 64
    bits turn the column into objects. *)
Definition moderate (q : Qc) : Prop :=
  (- Qc_of_Z (2 ^ 53) <= q)%Qc /\ (q <= Qc_of_Z (2 ^ 53))%Qc.


(** A cell of a numeric column: [nan] or a moderate number. *)
Definition moderate_cell (x : float) : Prop :=
  match x with
  | Fin q => moderate q
  | NaN => True
  end.

(** A close column that pandas holds as numbers: some cell is a number
    (a column of nulls only is one of objects holding [None], on which
    arithmetic raises [TypeError]) and every number is moderate; the
    null and missing cells are then [nan]. *)
Definition numeric_column (prices : list float) : Prop :=
  (exists q, Fin q ∈ prices) /\ Forall moderate_cell prices.

(** * The library path *)




(** The first of [keys] that the dict [q] lacks. *)
Definition first_missing (q : gmap string value) (keys : list string)
  : option string :=
  List.find (fun key => bool_decide (q !! key = None)) keys.

(** * The smoothing strategy in binary64

    The arithmetic of [predict_lstm] on a [float64] column, operation by
    operation, with IEEE 754 binary64 numbers in place of the rationals. *)
Module Binary64.

#[warnings="-notation-overridden"]
Import PrimFloat.

#[warnings="-inexact-float"]
Definition alpha : PrimFloat.float := 0.3%float.

(** [float(n)] of a Python [int]: exact, and so the conversion Python
    makes, up to 2^53; the forecast loop converts the step count only. *)
Fixpoint of_pos (p : positive) : PrimFloat.float :=
  match p with
  | xH => 1
  | xO p' => 2 * of_pos p'
  | xI p' => 2 * of_pos p' + 1
  end%float.

Definition of_Z (z : Z) : PrimFloat.float :=
  match z with
  | Z0 => 0
  | Zpos p => of_pos p
  | Zneg p => - of_pos p
  end%float.

(** [smoothed.append(alpha * prices[i] + (1 - alpha) * smoothed[-1])] *)
Definition smooth_step (prices smoothed : list PrimFloat.float) (i : Z)
  : result (list PrimFloat.float) :=
  p <- getitem prices i ;;
  s <- getitem smoothed (-1) ;;
  Ok (smoothed ++ [alpha * p + (1 - alpha) * s]%float).

Definition smoothing (prices : list PrimFloat.float)
  : result (list PrimFloat.float) :=
  p0 <- getitem prices 0 ;;
  foldM (smooth_step prices) [p0] (range 1 (Z.of_nat (length prices))).

(** [trend = (smoothed[-1] - smoothed[-20]) / 20] *)
Definition lstm_trend (smoothed : list PrimFloat.float) : result PrimFloat.float :=
  s1 <- getitem smoothed (-1) ;;
  s20 <- getitem smoothed (-20) ;;
  Ok ((s1 - s20) / 20)%float.

(** [predict_lstm] on the close column [prices] and the last date; a
    point is the pair of its day and its close. *)
Definition predict_lstm (prices : list PrimFloat.float) (last_date : Timestamp)
    (days : Z) : result (list (Z * PrimFloat.float)) :=
  smoothed <- smoothing prices ;;
  last_value <- getitem smoothed (-1) ;;
  trend <- lstm_trend smoothed ;;
  mapM (fun i => d <- strftime (add_days last_date (i + 1)) ;;
                 Ok (d, (last_value + trend * of_Z (i + 1))%float))
       (range 0 days).



End Binary64.

(** * The trend of the moving average on an integer column

    numpy holds an all-integer close column as [int64]: the subtraction
    of [predict_arima] is then one of 64-bit integers, which wraps
    around, and the division that follows gives a float. *)
Module Int64.

(** The 64-bit signed integer that stands for [z]: [z] modulo 2^64, taken
    between -2^63 and 2^63 - 1. *)
Definition wrap (z : Z) : Z := (z + 2 ^ 63) mod 2 ^ 64 - 2 ^ 63.

Definition sub (a b : Z) : Z := wrap (a - b).

(** [trend = (prices[-1] - prices[-window]) / window] *)
Definition arima_trend (prices : list Z) : result float :=
  p1 <- getitem prices (-1) ;;
  pw <- getitem prices (- window) ;;
  Ok (float_of_Z (sub p1 pw) / float_of_Z window)%F.

End Int64.

(** 30 integer closes whose last and 20th-last are 2^62 and -2^62: their
    difference, 2^63, does not fit 64 bits. *)
Definition wide30 : list Z :=
  replicate 10 0 ++ [- 2 ^ 62] ++ replicate 18 0 ++ [2 ^ 62].

(** * Arithmetic and sequence lemmas *)

Lemma mapM_Ok {A B} (f : A -> result B) (g : A -> B) (l : list A) :
  (forall x, x ∈ l -> f x = Ok (g x)) -> mapM f l = Ok (g <$> l).
Proof.
  induction l as [|x l IH]; intros H; simpl; [done|].
  rewrite H by left. simpl. rewrite IH; [done|].
  intros y Hy. apply H. by right.
Qed.

Lemma mapM_length {A B} (f : A -> result B) (l : list A) (l' : list B) :
  mapM f l = Ok l' -> length l' = length l.
Proof.
  revert l'. induction l as [|x l IH]; intros l'; simpl.
  - by intros [= <-].
  - destruct (f x); simpl; [|done].
    destruct (mapM f l); simpl; [|done].
    intros [= <-]. simpl. by rewrite (IH _ eq_refl).
Qed.

Lemma getitem_nonneg {A} (l : list A) (i : Z) (x : A) :
  0 <= i -> l !! Z.to_nat i = Some x -> getitem l i = Ok x.
Proof.
  intros Hi Hx. unfold getitem.
  apply lookup_lt_Some in Hx as Hlt.
  destruct (Z.ltb_spec i 0); [lia|].
  destruct (Z.leb_spec 0 i); [|lia].
  destruct (Z.ltb_spec i (Z.of_nat (length l))); [|lia].
  simpl. by rewrite Hx.
Qed.

Lemma getitem_neg {A} (l : list A) (k : nat) (x : A) :
  (0 < k <= length l)%nat -> l !! (length l - k)%nat = Some x ->
  getitem l (- Z.of_nat k) = Ok x.
Proof.
  intros Hk Hx. unfold getitem.
  destruct (Z.ltb_spec (- Z.of_nat k) 0); [|lia].
  destruct (Z.leb_spec 0 (Z.of_nat (length l) + - Z.of_nat k)); [|lia].
  destruct (Z.ltb_spec (Z.of_nat (length l) + - Z.of_nat k) (Z.of_nat (length l))); [|lia].
  simpl.
  replace (Z.to_nat (Z.of_nat (length l) + - Z.of_nat k)) with (length l - k)%nat by lia.
  by rewrite Hx.
Qed.

Lemma getitem_last {A} (l : list A) (x : A) : getitem (l ++ [x]) (-1) = Ok x.
Proof.
  apply (getitem_neg _ 1); rewrite length_app; simpl; [lia|].
  replace (length l + 1 - 1)%nat with (length l + 0)%nat by lia.
  by rewrite lookup_app_r, Nat.add_0_r, Nat.sub_diag by lia.
Qed.

Lemma range_0 n : range 0 n = seqZ 0 n.
Proof. unfold range. by rewrite Z.sub_0_r. Qed.

Lemma range_1 n : range 1 (n + 1) = seqZ 1 n.
Proof. unfold range. f_equal. lia. Qed.

Lemma seqZ_1 n : seqZ 1 n = Z.add 1 <$> seqZ 0 n.
Proof. by rewrite fmap_add_seqZ. Qed.

Lemma fsum_Fin (l : list Qc) : fsum (Fin <$> l) = Fin (Qcsum l).
Proof.
  unfold fsum. induction l as [|q l IH]; csimpl; [done|].
  by rewrite IH.
Qed.

Lemma fmean_Fin (l : list Qc) :
  fmean (Fin <$> l) = Fin (Qcsum l / Qc_of_Z (Z.of_nat (length l)))%Qc.
Proof. unfold fmean. by rewrite fsum_Fin, length_fmap. Qed.

Lemma one_minus_alpha : (Q2Qc 1 - alpha)%Qc = Q2Qc (7 # 10).
Proof. by apply Qc_is_canon. Qed.

Lemma Qc_of_Z_nonzero z : z <> 0 -> Qc_of_Z z <> 0%Qc.
Proof. intros Hz H. apply Hz. apply Z2Qc_inj. by rewrite H, Z2Qc_inj_0. Qed.

(** * The smoothing loop *)

Section Smoothing.

Variable price : list Qc.

(** The list the loop has built after [k] values. *)
Local Abbreviation built := (spec_smoothed_list price).

Lemma smooth_step_built (k : nat) :
  (0 < k < length price)%nat ->
  smooth_step (Fin <$> price) (built k) (Z.of_nat k) = Ok (built (S k)).
Proof.
  intros Hk. unfold smooth_step.
  destruct (lookup_lt_is_Some_2 price k) as [p Hp]; [lia|].
  rewrite (getitem_nonneg _ _ (Fin p)); [|lia|].
  2:{ by rewrite Nat2Z.id, list_lookup_fmap, Hp. }
  simpl. destruct k as [|j]; [lia|].
  unfold spec_smoothed_list at 1. rewrite seq_S, fmap_app. simpl.
  rewrite getitem_last. simpl.
  unfold spec_smoothed_list. rewrite (seq_S (S j)), fmap_app. simpl.
  do 3 f_equal. rewrite one_minus_alpha. fold alpha.
  by rewrite (nth_lookup_Some _ _ _ _ Hp).
Qed.

Lemma smoothing_loop (m k : nat) :
  (0 < k)%nat -> (k + m = length price)%nat ->
  foldM (smooth_step (Fin <$> price)) (built k) (seqZ (Z.of_nat k) (Z.of_nat m))
  = Ok (built (length price)).
Proof.
  revert k. induction m as [|m IH]; intros k Hk Hlen.
  - rewrite seqZ_nil by lia. simpl. do 2 f_equal. lia.
  - rewrite seqZ_cons by lia. simpl.
    rewrite smooth_step_built by lia. simpl.
    replace (Z.succ (Z.of_nat k)) with (Z.of_nat (S k)) by lia.
    replace (Z.pred (Z.of_nat (S m))) with (Z.of_nat m) by lia.
    apply IH; lia.
Qed.

(** On a numeric series the loop terminates without error and builds
    the values of the recurrence. *)
Lemma smoothing_numeric :
  (0 < length price)%nat ->
  smoothing (Fin <$> price) = Ok (built (length price)).
Proof.
  intros Hlen. unfold smoothing.
  destruct (lookup_lt_is_Some_2 price 0) as [p0 Hp0]; [lia|].
  rewrite (getitem_nonneg _ _ (Fin p0)); [|lia|].
  2:{ by rewrite Z2Nat.inj_0, list_lookup_fmap, Hp0. }
  simpl bind.
  replace (range 1 (Z.of_nat (length (Fin <$> price))))
    with (seqZ (Z.of_nat 1) (Z.of_nat (length price - 1))).
  2:{ unfold range. rewrite length_fmap. f_equal. lia. }
  replace [Fin p0] with (built 1).
  2:{ unfold spec_smoothed_list. simpl. by rewrite (nth_lookup_Some _ _ _ _ Hp0). }
  apply smoothing_loop; lia.
Qed.

Lemma built_lookup (n i : nat) :
  (i < n)%nat -> built n !! i = Some (Fin (spec_smoothed price i)).
Proof.
  intros Hi. unfold spec_smoothed_list. by rewrite list_lookup_fmap, lookup_seq_lt.
Qed.

Lemma built_length (n : nat) : length (built n) = n.
Proof. unfold spec_smoothed_list. by rewrite length_fmap, length_seq. Qed.

Lemma lstm_trend_numeric :
  (20 <= length price)%nat ->
  lstm_trend (built (length price))
  = Ok (Fin (spec_trend (spec_smoothed price) (length price - 1) 19)).
Proof.
  intros Hlen. unfold lstm_trend.
  rewrite (getitem_neg _ 1 (Fin (spec_smoothed price (length price - 1)))).
  2:{ rewrite built_length. lia. }
  2:{ rewrite built_length. apply built_lookup. lia. }
  rewrite (getitem_neg _ 20 (Fin (spec_smoothed price (length price - 20)))).
  2:{ rewrite built_length. lia. }
  2:{ rewrite built_length. apply built_lookup. lia. }
  simpl. unfold spec_trend.
  by replace (length price - 1 - 19)%nat with (length price - 20)%nat by lia.
Qed.

End Smoothing.

(** * The prediction loop *)

Lemma forecast_loop (d0 : Z) (f g : Z -> float) (days : Z) :
  (forall i, f i = g (i + 1)) ->
  mapM (fun i => make_point (TS d0) i (f i)) (range 0 days)
  = Ok ((fun k => {| p_date := d0 + k; p_close := g k |}) <$> seqZ 1 days).
Proof.
  intros Hfg. rewrite range_0, seqZ_1, <- list_fmap_compose.
  apply mapM_Ok. intros i _. unfold make_point. simpl.
  rewrite Hfg. do 2 f_equal; [lia|]. f_equal. lia.
Qed.


(** * Exponential smoothing on a numeric series *)

Lemma predict_lstm_numeric df price d0 days :
  close_values df = Ok (Fin <$> price) ->
  (20 <= length price)%nat ->
  date_max df = TS d0 ->
  predict_lstm df days
  = Ok (spec_forecast d0 (spec_smoothed price (length price - 1))
          (spec_trend (spec_smoothed price) (length price - 1) 19) days).
Proof.
  intros Hclose Hlen Hdate. unfold predict_lstm.
  rewrite Hclose. simpl bind.
  rewrite smoothing_numeric by lia. simpl bind.
  rewrite (getitem_neg _ 1 (Fin (spec_smoothed price (length price - 1)))).
  2:{ rewrite built_length. lia. }
  2:{ rewrite built_length. apply built_lookup. lia. }
  simpl bind. rewrite lstm_trend_numeric by done. simpl bind.
  rewrite Hdate. unfold spec_forecast.
  apply (forecast_loop d0 _
    (fun k => Fin (spec_smoothed price (length price - 1)
                   + spec_trend (spec_smoothed price) (length price - 1) 19
                     * Qc_of_Z k)%Qc)).
  done.
Qed.

(** * The moving average on a numeric series *)

Lemma last_moving_average_numeric (price : list Qc) :
  (20 <= length price)%nat ->
  last_moving_average (Fin <$> price) = Ok (Fin (spec_moving_average price)).
Proof.
  intros Hlen. unfold last_moving_average, rolling_mean.
  rewrite range_0, length_fmap.
  set (n := length price) in *.
  apply (getitem_neg _ 1).
  { rewrite length_fmap, length_seqZ. lia. }
  rewrite length_fmap, length_seqZ, Nat2Z.id, list_lookup_fmap.
  rewrite lookup_seqZ_lt by lia. simpl.
  destruct (Z.ltb_spec (0 + Z.of_nat (n - 1) + 1) window); [unfold window in *; lia|].
  rewrite <- fmap_drop, <- fmap_take, fmean_Fin.
  unfold spec_moving_average, window. fold n.
  replace (Z.to_nat (0 + Z.of_nat (n - 1) + 1 - 20)) with (n - 20)%nat by lia.
  rewrite take_ge by (rewrite length_drop; lia).
  rewrite length_drop. do 4 f_equal. lia.
Qed.

Lemma arima_trend_numeric (price : list Qc) :
  (20 <= length price)%nat ->
  arima_trend (Fin <$> price)
  = Ok (Fin (spec_trend (fun i => nth i price 0%Qc) (length price - 1) 19)).
Proof.
  intros Hlen. unfold arima_trend.
  destruct (lookup_lt_is_Some_2 price (length price - 1)) as [p1 Hp1]; [lia|].
  destruct (lookup_lt_is_Some_2 price (length price - 20)) as [pw Hpw]; [lia|].
  rewrite (getitem_neg _ 1 (Fin p1)).
  2:{ rewrite length_fmap. lia. }
  2:{ by rewrite length_fmap, list_lookup_fmap, Hp1. }
  change (- window) with (- Z.of_nat 20).
  rewrite (getitem_neg _ 20 (Fin pw)).
  2:{ rewrite length_fmap. lia. }
  2:{ by rewrite length_fmap, list_lookup_fmap, Hpw. }
  simpl. unfold spec_trend.
  replace (length price - 1 - 19)%nat with (length price - 20)%nat by lia.
  by rewrite (nth_lookup_Some _ _ _ _ Hp1), (nth_lookup_Some _ _ _ _ Hpw).
Qed.

Lemma predict_arima_numeric df price d0 days :
  close_values df = Ok (Fin <$> price) ->
  (20 <= length price)%nat ->
  date_max df = TS d0 ->
  predict_arima df days
  = Ok (spec_forecast d0 (spec_moving_average price)
          (spec_trend (fun i => nth i price 0%Qc) (length price - 1) 19) days).
Proof.
  intros Hclose Hlen Hdate. unfold predict_arima.
  rewrite Hclose. simpl bind.
  rewrite last_moving_average_numeric by done. simpl bind.
  rewrite arima_trend_numeric by done. simpl bind.
  rewrite Hdate. unfold spec_forecast.
  apply (forecast_loop d0 _
    (fun k => Fin (spec_moving_average price
                   + spec_trend (fun i => nth i price 0%Qc) (length price - 1) 19
                     * Qc_of_Z k)%Qc)).
  done.
Qed.

(** * Ordinary least squares *)

Lemma Qc_of_nat_S (n : nat) : Qc_of_nat (S n) = (Qc_of_nat n + 1)%Qc.
Proof.
  unfold Qc_of_nat. by rewrite Nat2Z.inj_succ, <- Z.add_1_r, Z2Qc_inj_add, Z2Qc_inj_1.
Qed.

Lemma Qc_of_nat_nonzero (n : nat) : (0 < n)%nat -> Qc_of_nat n <> 0%Qc.
Proof. intros Hn. apply Qc_of_Z_nonzero. lia. Qed.

Lemma Qcsum_affine (a b : Qc) (xs : list Qc) :
  Qcsum ((fun x => a + b * x)%Qc <$> xs)
  = (a * Qc_of_nat (length xs) + b * Qcsum xs)%Qc.
Proof.
  induction xs as [|x xs IH]; csimpl.
  - change (Qc_of_nat 0) with (Qc_of_Z 0). rewrite Z2Qc_inj_0. ring.
  - rewrite IH, Qc_of_nat_S. ring.
Qed.

Lemma Qcsum_scale (b : Qc) (g : Qc -> Qc) (xs : list Qc) :
  Qcsum ((fun x => b * g x)%Qc <$> xs) = (b * Qcsum (g <$> xs))%Qc.
Proof.
  induction xs as [|x xs IH]; csimpl; [ring|]. rewrite IH. ring.
Qed.

Lemma Qc_square_nonneg (x : Qc) : (0 <= x * x)%Qc.
Proof.
  destruct (Qclt_le_dec x 0) as [Hneg|Hpos].
  - replace (x * x)%Qc with ((- x) * (- x))%Qc by ring.
    assert (0 <= - x)%Qc.
    { apply Qclt_le_weak in Hneg. apply Qcopp_le_compat in Hneg.
      by replace (- 0)%Qc with 0%Qc in Hneg by ring. }
    by apply Qcmult_nonneg_nonneg.
  - by apply Qcmult_nonneg_nonneg.
Qed.

Lemma sxx_nonneg (c : Qc) (xs : list Qc) : (0 <= sxx c xs)%Qc.
Proof.
  unfold sxx. induction xs as [|x xs IH]; csimpl.
  - apply Qcle_refl.
  - apply Qcplus_nonneg_nonneg; [apply Qc_square_nonneg|done].
Qed.

(** The sum of squares vanishes only when every feature equals the centre. *)
Lemma sxx_zero (c : Qc) (xs : list Qc) :
  sxx c xs = 0%Qc -> Forall (fun x => x = c) xs.
Proof.
  induction xs as [|x xs IH]; intros H; [constructor|].
  unfold sxx in H. csimpl in H. fold (sxx c xs) in H.
  pose proof (Qc_square_nonneg (x - c)) as Hsq.
  pose proof (sxx_nonneg c xs) as Hrest.
  assert (Hx : ((x - c) * (x - c) = 0)%Qc).
  { apply Qcle_antisym; [|done]. rewrite <- H.
    rewrite <- (Qcplus_0_r ((x - c) * (x - c))) at 1.
    by apply Qcplus_le_mono_l. }
  constructor.
  - apply Qcmult_integral in Hx.
    assert (x - c = 0)%Qc as Hd by tauto.
    replace x with ((x - c) + c)%Qc by ring. rewrite Hd. ring.
  - apply IH. rewrite Hx, Qcplus_0_l in H. done.
Qed.

Lemma sxx_days_nonzero (c : Qc) (n : Z) :
  2 <= n -> sxx c (Qc_of_Z <$> seqZ 0 n) <> 0%Qc.
Proof.
  intros Hn H. apply sxx_zero in H.
  rewrite seqZ_cons in H by lia. rewrite (seqZ_cons (Z.succ 0)) in H by lia.
  csimpl in H. apply Forall_cons in H as [Hzero H].
  apply Forall_cons in H as [Hone _].
  rewrite <- Hone in Hzero. by apply Z2Qc_inj in Hzero.
Qed.

Lemma mapM_finite_value (ys : list Qc) : mapM finite_value (Fin <$> ys) = Ok ys.
Proof. induction ys as [|y ys IH]; csimpl; [done|]. by rewrite IH. Qed.

(** On a numeric sample with at least one point [fit] returns a model. *)
Lemma fit_numeric (X : list Z) (ys : list Qc) :
  X <> [] ->
  exists m, fit X (Fin <$> ys) = Ok m.
Proof.
  intros HX. unfold fit. rewrite mapM_finite_value. simpl bind.
  destruct X; [done|]. eauto.
Qed.

(** A sample that lies on a line is fitted by that line. *)
Lemma fit_line (a b : Qc) (X : list Z) :
  sxx (mean (Qc_of_Z <$> X)) (Qc_of_Z <$> X) <> 0%Qc ->
  fit X (Fin <$> ((fun x => a + b * Qc_of_Z x)%Qc <$> X))
  = Ok {| coef_ := b; intercept_ := a |}.
Proof.
  intros Hsxx. unfold fit. rewrite mapM_finite_value. simpl bind.
  destruct X as [|x0 X'] eqn:E; [by (exfalso; apply Hsxx)|].
  rewrite <- E in *. clear E.
  set (xs := Qc_of_Z <$> X) in *.
  replace ((fun x => a + b * Qc_of_Z x)%Qc <$> X)
    with ((fun x => a + b * x)%Qc <$> xs)
    by (unfold xs; by rewrite <- list_fmap_compose).
  assert (Hn : Qc_of_nat (length xs) <> 0%Qc).
  { apply Qc_of_nat_nonzero. unfold xs. rewrite length_fmap.
    destruct X; [by (exfalso; apply Hsxx)|simpl; lia]. }
  assert (Hybar : mean ((fun x => a + b * x)%Qc <$> xs) = (a + b * mean xs)%Qc).
  { unfold mean. rewrite Qcsum_affine, length_fmap. by field. }
  rewrite Hybar.
  assert (Hsxy : sxy (mean xs) (a + b * mean xs) xs ((fun x => a + b * x)%Qc <$> xs)
                 = (b * sxx (mean xs) xs)%Qc).
  { unfold sxy, sxx. rewrite zip_with_fmap_r, zip_with_diag.
    rewrite <- Qcsum_scale. f_equal. apply list_fmap_ext. intros _ x _. ring. }
  rewrite Hsxy. destruct (decide (sxx (mean xs) xs = 0%Qc)) as [H0|_]; [done|].
  do 2 f_equal; field; done.
Qed.

Lemma predict_nonempty (m : LinearRegression) (X : list Z) :
  X <> [] ->
  predict m X = Ok ((fun x => Fin (intercept_ m + coef_ m * Qc_of_Z x)%Qc) <$> X).
Proof. by destruct X. Qed.

Lemma enumerate_seqZ {A} (h : Z -> A) (n : Z) :
  enumerate (h <$> seqZ 1 n) = (fun k => (k - 1, h k)) <$> seqZ 1 n.
Proof.
  unfold enumerate. rewrite length_fmap, length_seqZ, range_0.
  replace (seqZ 0 (Z.of_nat (Z.to_nat n))) with (seqZ 0 n)
    by (unfold seqZ; by rewrite Nat2Z.id).
  rewrite seqZ_1, <- !list_fmap_compose.
  rewrite zip_with_fmap_r, zip_with_diag.
  apply list_fmap_ext. intros _ k _. simpl. f_equal. lia.
Qed.

Lemma close_values_length df l : close_values df = Ok l -> length l = len df.
Proof.
  unfold close_values. destruct (decide _); [|done]. apply mapM_length.
Qed.

(** * Linear regression on a numeric window *)

Lemma predict_linear_regression_numeric df ys m d0 days :
  close_values (tail 60 df) = Ok (Fin <$> ys) ->
  fit (range 0 (Z.of_nat (length ys))) (Fin <$> ys) = Ok m ->
  date_max df = TS d0 ->
  0 < days ->
  predict_linear_regression df days
  = Ok ((fun k => {| p_date := d0 + k;
                     p_close := Fin (intercept_ m
                                     + coef_ m * Qc_of_Z (Z.of_nat (length ys) + k))%Qc |})
          <$> seqZ 1 days).
Proof.
  intros Hclose Hfit Hdate Hdays. unfold predict_linear_regression.
  rewrite Hclose. simpl bind.
  apply close_values_length in Hclose. rewrite length_fmap in Hclose.
  rewrite <- Hclose, Hfit. simpl bind.
  rewrite range_1, predict_nonempty.
  2:{ rewrite seqZ_cons by lia. done. }
  simpl bind. rewrite Hdate, <- list_fmap_compose, enumerate_seqZ.
  rewrite (mapM_Ok _ (fun ip => {| p_date := d0 + (fst ip + 1); p_close := snd ip |})) by done.
  rewrite <- list_fmap_compose. f_equal. apply list_fmap_ext.
  intros _ k _. simpl. f_equal. lia.
Qed.

(** * Preparing the frame *)

Lemma insert_row_Permutation (r : Row) (l : list Row) : insert_row r l ≡ₚ r :: l.
Proof.
  induction l as [|r' l IH]; simpl; [done|].
  destruct (ts_leb (date r) (date r')); [done|].
  rewrite IH. apply Permutation_swap.
Qed.

Lemma sort_values_Permutation (l : list Row) : sort_values l ≡ₚ l.
Proof.
  induction l as [|r l IH]; simpl; [done|].
  by rewrite insert_row_Permutation, IH.
Qed.

Lemma mapM_fails {A B} (f : A -> result B) (l : list A) :
  fails (mapM f l) <-> Exists (fun x => fails (f x)) l.
Proof.
  induction l as [|x l IH]; simpl.
  - split; [intros [e He]; done|intros H; inversion H].
  - rewrite Exists_cons, <- IH. unfold fails.
    destruct (f x) as [y|e]; simpl.
    + destruct (mapM f l) as [ys|e]; simpl.
      * split; [intros [e He]; done|intros [[e He]|[e He]]; done].
      * split; [intros _; right; by eexists|intros _; by eexists].
    + split; [intros _; left; by eexists|intros _; by eexists].
Qed.

Section Preparing.

Variable to_datetime : value -> option Z.

Local Abbreviation make_row :=
  (fun r : gmap string value =>
     d <- to_datetime_cell to_datetime (r !! "date") ;;
     Ok {| date := d; record := r |}).

Lemma make_rows_record (h : list (gmap string value)) (rs : list Row) :
  mapM make_row h = Ok rs -> record <$> rs = h.
Proof.
  revert rs. induction h as [|r h IH]; intros rs; simpl.
  - by intros [= <-].
  - destruct (to_datetime_cell to_datetime (r !! "date")) as [d|e]; simpl; [|done].
    destruct (mapM make_row h) as [rs'|e]; simpl; [|done].
    intros [= <-]. csimpl. by rewrite (IH _ eq_refl).
Qed.

Lemma make_row_fails (r : gmap string value) :
  fails (make_row r) <-> unparseable_date to_datetime r.
Proof.
  unfold fails, unparseable_date, to_datetime_cell.
  destruct (r !! "date") as [v|]; simpl.
  - destruct v as [q|s|]; simpl.
    + destruct (to_datetime (VNum q)) as [d|] eqn:E; simpl.
      * split; [intros [e He]; done|].
        intros (v & [= <-] & _ & Hv). congruence.
      * split; [intros _|intros _; by eexists].
        exists (VNum q). done.
    + destruct (to_datetime (VStr s)) as [d|] eqn:E; simpl.
      * split; [intros [e He]; done|].
        intros (v & [= <-] & _ & Hv). congruence.
      * split; [intros _|intros _; by eexists].
        exists (VStr s). done.
    + split; [intros [e He]; done|].
      intros (v & [= <-] & Hv & _). done.
  - split; [intros [e He]; done|]. intros (v & Hv & _). done.
Qed.

(** What a successful preparation returns: the columns are the keys of
    the records and the rows are the records, reordered. *)
Lemma prepare_dataframe_Ok (h : list (gmap string value)) (df : DataFrame) :
  prepare_dataframe to_datetime h = Ok df ->
  columns df = ⋃ (dom <$> h) /\ record <$> rows df ≡ₚ h.
Proof.
  unfold prepare_dataframe. destruct (decide _) as [Hd|Hd]; [|done].
  destruct (mapM make_row h) as [rs|e] eqn:E; simpl; [|done].
  intros [= <-]. simpl. split; [done|].
  rewrite sort_values_Permutation. by rewrite (make_rows_record _ _ E).
Qed.

(** Preparation fails exactly when the date column is missing or one of
    its cells cannot be parsed. *)
Lemma prepare_dataframe_fails (h : list (gmap string value)) :
  fails (prepare_dataframe to_datetime h)
  <-> "date" ∉ (⋃ (dom <$> h) : gset string) \/ Exists (unparseable_date to_datetime) h.
Proof.
  unfold prepare_dataframe. destruct (decide _) as [Hd|Hd].
  - assert (Hrows : fails (mapM make_row h) <-> Exists (unparseable_date to_datetime) h).
    { rewrite mapM_fails.
      split; intros HE; (eapply Exists_impl; [exact HE|]);
        intros r; apply make_row_fails. }
    rewrite <- Hrows. unfold fails.
    destruct (mapM make_row h) as [rs|e]; simpl.
    + split; [intros [e He]; done|intros [?|[e He]]; done].
    + split; [intros _; right; by eexists|intros _; by eexists].
  - split; [by left|intros _; by eexists].
Qed.

End Preparing.

(** * Reading the close column *)




(** * Dates of the forecasts *)

Global Instance TS_inj : Inj (=) (=) TS.
Proof. by intros x y [= ->]. Qed.




Lemma forecast_rows_after (last : Timestamp) (forecast : list (Timestamp * float)) :
  let future := List.filter (fun row => ts_gtb (fst row) last) forecast in
  mapM (fun row => d <- strftime (fst row) ;; Ok {| p_date := d; p_close := snd row |}) future
  = Ok ((fun row => {| p_date := day_of (fst row); p_close := snd row |}) <$> future)
  /\ TS <$> (day_of <$> (fst <$> future)) = fst <$> future.
Proof.
  intros future.
  assert (Hfut : Forall (fun row => exists d, fst row = TS d) future).
  { apply Forall_forall. intros row Hrow.
    apply list_elem_of_In, filter_In in Hrow as [_ Hgt].
    destruct (fst row) as [d|]; [by eexists|done]. }
  clearbody future. split.
  - apply mapM_Ok. intros row Hrow.
    apply (proj1 (Forall_forall _ _) Hfut) in Hrow as [d Hd].
    by rewrite Hd.
  - induction Hfut as [|row l [d Hd] _ IH]; csimpl; [done|].
    by rewrite IH, Hd.
Qed.

Lemma slice_to_subseteq {A} (l : list A) (k : Z) (x : A) :
  x ∈ slice_to l k -> x ∈ l.
Proof.
  unfold slice_to. destruct (0 <=? k); intros H; by apply elem_of_take in H as (i & H & _);
    apply list_elem_of_lookup; exists i.
Qed.

Lemma slice_to_length {A} (l : list A) (k : Z) :
  0 <= k -> Z.of_nat (length (slice_to l k)) <= k.
Proof.
  intros Hk. unfold slice_to. destruct (Z.leb_spec 0 k); [|lia].
  rewrite length_take. lia.
Qed.

Lemma forecast_with_dated_after lib df days preds :
  forecast_with lib df days = Ok preds -> dated_after df preds.
Proof.
  unfold forecast_with.
  destruct (date_close df) as [frame|]; simpl; [|done].
  destruct (lib frame days) as [forecast|]; simpl; [|done].
  destruct (forecast_rows_after (date_max df) forecast) as [-> _]. simpl.
  intros [= <-] p Hp. apply slice_to_subseteq in Hp.
  apply list_elem_of_fmap in Hp as (row & -> & Hrow).
  apply list_elem_of_In, filter_In in Hrow as [_ Hgt]. simpl.
  destruct (fst row) as [d|], (date_max df) as [d0|]; simpl in *; try done.
  exists d0. split; [done|lia].
Qed.




(** * The dispatcher *)

(** Decide the string comparisons of the routing chain once the model
    name is known. *)
Ltac route :=
  repeat match goal with
  | |- context [String.eqb ?a ?b] =>
    let v := eval vm_compute in (String.eqb a b) in
    change (String.eqb a b) with v
  end; cbv iota.

Section Dispatch.

Variable to_datetime : value -> option Z.
Variable exn_str : exn -> string.
Variable NeuralProphet : option Forecaster.
Variable Prophet : option Forecaster.



(** C2. The dispatcher raises [HTTPException(status_code=400)] for a
    prepared series of fewer than 30 records, whatever the model name,
    but the [except Exception] clause around it catches that exception
    too: the caller receives status 500, not the client error. *)
Theorem predict_stock_insufficient_data (request : PredictionRequest)
    (df : DataFrame) :
  prepare_dataframe to_datetime (historical request) = Ok df ->
  (len df < 30)%nat ->
  predict_stock_try to_datetime NeuralProphet Prophet request
  = Raise (HTTPException 400 "Insufficient historical data")
  /\ predict_stock to_datetime exn_str NeuralProphet Prophet request
     = Raise (HTTPException 500
                (exn_str (HTTPException 400 "Insufficient historical data"))).
Proof.
  intros Hprep Hlen. unfold predict_stock, predict_stock_try.
  rewrite Hprep. simpl bind.
  destruct (Nat.ltb_spec (len df) 30) as [_|]; [done|lia].
Qed.

(** C3 (amended). For a request whose model is not one of the five
    names: when the prepared series has at least 30 records the
    dispatcher raises the invalid-model error; when it has fewer, the
    length check comes first and the insufficient-data error is raised
    instead. *)
Theorem predict_stock_unknown_model (request : PredictionRequest)
    (df : DataFrame) :
  prepare_dataframe to_datetime (historical request) = Ok df ->
  ~ recognized (model request) ->
  ((30 <= len df)%nat ->
   predict_stock_try to_datetime NeuralProphet Prophet request
   = Raise (HTTPException 400 "Invalid model"))
  /\ ((len df < 30)%nat ->
      predict_stock_try to_datetime NeuralProphet Prophet request
      = Raise (HTTPException 400 "Insufficient historical data")).
Proof.
  intros Hprep Hrec. unfold predict_stock_try. rewrite Hprep. simpl bind.
  split; intros Hlen.
  - destruct (Nat.ltb_spec (len df) 30) as [|_]; [lia|].
    unfold recognized in Hrec.
    repeat match goal with
    | |- context [String.eqb (model request) ?s] =>
      destruct (String.eqb_spec (model request) s) as [E|_];
        [exfalso; apply Hrec; rewrite E; set_solver|]
    end.
    done.
  - destruct (Nat.ltb_spec (len df) 30) as [_|]; [done|lia].
Qed.

(** C7.  When the library behind "neural_prophet" (or "prophet") is not
    installed, the strategy of that name is the regression: on every
    frame and horizon it gives what [predict_linear_regression] gives.
    A request for that model on a series of at least 30 records then
    returns the output of [predict_linear_regression] on the prepared
    series and the horizon of the request, with the requested name in the
    [model] field (or reports the error the regression raised); so it
    gets exactly what the same request for "linear_regression" gets,
    error or success, except for the [model] field. *)
Theorem predict_stock_fallback (request : PredictionRequest) (m : string) :
  (m = "neural_prophet" /\ NeuralProphet = None)
  \/ (m = "prophet" /\ Prophet = None) ->
  (forall df days,
     (m = "neural_prophet" ->
      predict_neural_prophet NeuralProphet df days
      = predict_linear_regression df days)
     /\ (m = "prophet" ->
         predict_prophet Prophet df days = predict_linear_regression df days))
  /\ (forall df,
        prepare_dataframe to_datetime (historical request) = Ok df ->
        (30 <= len df)%nat ->
        predict_stock to_datetime exn_str NeuralProphet Prophet (with_model m request)
        = match predict_linear_regression df (days request) with
          | Ok preds =>
            Ok {| r_symbol := symbol request; r_model := m; predictions := preds |}
          | Raise e => Raise (HTTPException 500 (exn_str e))
          end)
  /\ predict_stock to_datetime exn_str NeuralProphet Prophet (with_model m request)
     = relabel m
         (predict_stock to_datetime exn_str NeuralProphet Prophet
            (with_model "linear_regression" request)).
Proof.
  intros Hm. split; [|split].
  - intros df days.
    destruct Hm as [[-> Hlib]|[-> Hlib]]; split; intros E; try discriminate E.
    + unfold predict_neural_prophet. by rewrite Hlib.
    + unfold predict_prophet. by rewrite Hlib.
  - intros df Hprep Hlen.
    unfold predict_stock, predict_stock_try, with_model. simpl.
    rewrite Hprep. simpl.
    destruct (Nat.ltb_spec (len df) 30) as [|_]; [lia|].
    destruct Hm as [[-> Hlib]|[-> Hlib]]; route.
    + unfold predict_neural_prophet. rewrite Hlib.
      by destruct (predict_linear_regression df (days request)).
    + unfold predict_prophet. rewrite Hlib.
      by destruct (predict_linear_regression df (days request)).
  - unfold predict_stock, predict_stock_try, with_model. simpl.
    destruct (prepare_dataframe to_datetime (historical request)) as [df|e]; simpl; [|done].
    destruct (len df <? 30)%nat; [done|].
    destruct Hm as [[-> Hlib]|[-> Hlib]]; route.
    + unfold predict_neural_prophet. rewrite Hlib.
      by destruct (predict_linear_regression df (days request)).
    + unfold predict_prophet. rewrite Hlib.
      by destruct (predict_linear_regression df (days request)).
Qed.

(** C9 (amended). The preparer fails if and only if no record has a
    date field (the empty list included) or the date of some record is
    present and cannot be parsed.  The close field is never inspected:
    when every record carries a parseable date, preparation succeeds
    whatever the close fields hold. *)
Theorem prepare_dataframe_failure (h : list (gmap string value)) :
  (fails (prepare_dataframe to_datetime h)
   <-> "date" ∉ (⋃ (dom <$> h) : gset string)
       \/ Exists (unparseable_date to_datetime) h)
  /\ (h <> [] -> Forall (parseable_date to_datetime) h ->
      exists df, prepare_dataframe to_datetime h = Ok df).
Proof.
  split; [apply prepare_dataframe_fails|].
  intros Hne Hdates.
  destruct (prepare_dataframe to_datetime h) as [df|e] eqn:E; [by eexists|].
  exfalso.
  assert (fails (prepare_dataframe to_datetime h)) as Hf by (by eexists).
  apply prepare_dataframe_fails in Hf as [Hcol|Hbad].
  - apply Hcol. destruct h as [|r h']; [done|].
    apply Forall_cons in Hdates as [(v & d & Hv & _) _].
    apply elem_of_union_list. exists (dom r). split; [csimpl; left|].
    apply elem_of_dom. by eexists.
  - apply Exists_exists in Hbad as (r & Hr & v & Hv & _ & Hnone).
    apply (proj1 (Forall_forall _ _) Hdates) in Hr as (v' & d & Hv' & _ & Hsome).
    congruence.
Qed.

(** C10. On the empty historical list the preparer raises [KeyError]
    on the date column, so the length check is never reached: the [try]
    block ends with that [KeyError], not with the insufficient-data
    error, and the caller receives status 500. *)
Theorem predict_stock_empty_history (sym m : string) (n : Z) :
  prepare_dataframe to_datetime [] = Raise (KeyError "date")
  /\ predict_stock_try to_datetime NeuralProphet Prophet
       {| symbol := sym; model := m; days := n; historical := [] |}
     = Raise (KeyError "date")
  /\ predict_stock to_datetime exn_str NeuralProphet Prophet
       {| symbol := sym; model := m; days := n; historical := [] |}
     = Raise (HTTPException 500 (exn_str (KeyError "date"))).
Proof.
  assert (prepare_dataframe to_datetime [] = Raise (KeyError "date")) as Hprep.
  { unfold prepare_dataframe. destruct (decide _) as [Hd|_]; [|done].
    csimpl in Hd. set_solver. }
  simpl. unfold predict_stock, predict_stock_try. simpl. by rewrite Hprep.
Qed.

End Dispatch.

(** * The strategies on particular series *)

Lemma points_on_line (a b : Qc) (ys : list Qc) :
  (forall i, (i < length ys)%nat -> ys !! i = Some (a + b * Qc_of_nat i)%Qc) ->
  ys = (fun x => a + b * Qc_of_Z x)%Qc <$> seqZ 0 (Z.of_nat (length ys)).
Proof.
  intros Hline. apply list_eq. intros i.
  rewrite list_lookup_fmap.
  destruct (decide (i < length ys)%nat) as [Hi|Hi].
  - rewrite lookup_seqZ_lt by lia. rewrite (Hline i Hi). simpl.
    unfold Qc_of_nat. by rewrite Z.add_0_l.
  - rewrite lookup_seqZ_ge by lia. simpl. apply lookup_ge_None. lia.
Qed.

(** C4.  On a window whose closes lie on the line [close = a + b * index]
    the regression recovers the line, but the code evaluates it at the
    indices [n + 1 .. n + days], where [n] is the length of the window and
    [n - 1] the index of the last close: the point dated [k] days after
    the last input date is the last close plus [(k + 1) * b], one step
    further than the continuation by [k * b]; the two differ as soon as
    the slope is not zero. *)
Theorem predict_linear_regression_on_a_line (df : DataFrame) (ys : list Qc)
    (a b : Qc) (d0 days : Z) :
  close_values (tail 60 df) = Ok (Fin <$> ys) ->
  (2 <= length ys)%nat ->
  (forall i, (i < length ys)%nat -> ys !! i = Some (a + b * Qc_of_nat i)%Qc) ->
  date_max df = TS d0 ->
  0 < days ->
  let last_close := (a + b * Qc_of_nat (length ys - 1))%Qc in
  predict_linear_regression df days
  = Ok ((fun k => {| p_date := d0 + k;
                     p_close := Fin (last_close + (Qc_of_Z k + 1) * b)%Qc |})
          <$> seqZ 1 days)
  /\ (b <> 0%Qc ->
      forall k, (last_close + (Qc_of_Z k + 1) * b <> last_close + Qc_of_Z k * b)%Qc).
Proof.
  intros Hclose Hlen Hline Hdate Hdays last_close. split.
  - rewrite (predict_linear_regression_numeric df ys
               {| coef_ := b; intercept_ := a |} d0 days); [|done| |done|done].
    + f_equal. apply list_fmap_ext. intros _ k _. simpl. do 2 f_equal.
      unfold last_close, Qc_of_nat.
      replace (Z.of_nat (length ys) + k) with (Z.of_nat (length ys - 1) + (k + 1)) by lia.
      rewrite !Z2Qc_inj_add, Z2Qc_inj_1. ring.
    + rewrite (points_on_line a b ys Hline) at 2.
      rewrite range_0. apply fit_line, sxx_days_nonzero. lia.
  - intros Hb k H. apply Hb.
    assert ((last_close + (Qc_of_Z k + 1) * b) - (last_close + Qc_of_Z k * b) = b)%Qc
      as Hdiff by ring.
    rewrite H in Hdiff. rewrite <- Hdiff. ring.
Qed.

(** C5 (amended).  On a numeric series of at least 30 closes the smoothing
    loop builds [smoothed[0] = price[0]],
    [smoothed[i] = 0.3 * price[i] + 0.7 * smoothed[i-1]]; the trend is
    [(smoothed[last] - smoothed[last-19]) / 20], the 20th value from the
    end being 19 places before the last; and future point [i] (from 1) is
    [smoothed[last] + trend * i]. *)
Theorem predict_lstm_formula (df : DataFrame) (price : list Qc) (d0 days : Z) :
  close_values df = Ok (Fin <$> price) ->
  (30 <= length price)%nat ->
  date_max df = TS d0 ->
  let last := (length price - 1)%nat in
  smoothing (Fin <$> price) = Ok (spec_smoothed_list price (length price))
  /\ lstm_trend (spec_smoothed_list price (length price))
     = Ok (Fin (spec_trend (spec_smoothed price) last 19))
  /\ predict_lstm df days
     = Ok (spec_forecast d0 (spec_smoothed price last)
             (spec_trend (spec_smoothed price) last 19) days).
Proof.
  intros Hclose Hlen Hdate last. split; [|split].
  - apply smoothing_numeric. lia.
  - apply lstm_trend_numeric. lia.
  - apply predict_lstm_numeric; [done|lia|done].
Qed.

(** * The trend on a column of integers *)

Lemma getitem_fmap {A B} (f : A -> B) (l : list A) (i : Z) :
  getitem (f <$> l) i
  = match getitem l i with
    | Ok x => Ok (f x)
    | Raise e => Raise e
    end.
Proof.
  unfold getitem. rewrite length_fmap, list_lookup_fmap.
  destruct (_ && _); [|done]. by destruct (l !! _).
Qed.

Lemma getitem_elem_of {A} (l : list A) (i : Z) (x : A) :
  getitem l i = Ok x -> x ∈ l.
Proof.
  unfold getitem. destruct (_ && _); [|done].
  destruct (l !! _) as [y|] eqn:E; [|done].
  intros [= <-]. by apply list_elem_of_lookup_2 in E.
Qed.

Lemma wrap_small (z : Z) : - 2 ^ 63 <= z < 2 ^ 63 -> Int64.wrap z = z.
Proof. intros Hz. unfold Int64.wrap. rewrite Z.mod_small; lia. Qed.

Lemma moderate_Z_inv (z : Z) : moderate (Qc_of_Z z) -> - 2 ^ 53 <= z <= 2 ^ 53.
Proof.
  intros [H1 H2]. rewrite <- Z2Qc_inj_opp in H1.
  apply Z2Qc_inj_le in H1, H2. lia.
Qed.

(** On moderate integers the 64-bit subtraction is the exact one, and the
    trend of the integer column is the trend of the model. *)
Lemma int64_trend_exact (zs : list Z) :
  Forall moderate (Qc_of_Z <$> zs) ->
  Int64.arima_trend zs = arima_trend (Fin <$> (Qc_of_Z <$> zs)).
Proof.
  intros Hmod. unfold Int64.arima_trend, arima_trend.
  rewrite <- list_fmap_compose, !getitem_fmap.
  destruct (getitem zs (-1)) as [a|] eqn:Ea; cbn [bind]; [|done].
  destruct (getitem zs (- window)) as [b|] eqn:Eb; cbn [bind]; [|done].
  assert (forall z, z ∈ zs -> - 2 ^ 53 <= z <= 2 ^ 53) as Hz.
  { intros z Hin. apply moderate_Z_inv.
    apply (proj1 (Forall_forall _ _) Hmod). by apply list_elem_of_fmap_2. }
  apply getitem_elem_of, Hz in Ea. apply getitem_elem_of, Hz in Eb.
  unfold Int64.sub. rewrite wrap_small by lia.
  unfold float_of_Z. simpl. by rewrite Z2Qc_inj_sub.
Qed.

(** C6 (amended).  On a numeric series of at least 30 closes, all of
    them moderate, the strategy takes the mean of the last 20 closes, the
    last value of the rolling average; the trend is
    [(price[last] - price[last-19]) / 20], the 20th close from the end
    being 19 places before the last; and future point [i] (from 1) is
    [last_moving_average + trend * i].  When the closes are integers,
    which numpy subtracts in 64 bits, the trend is the same: moderate
    closes do not wrap around. *)
Theorem predict_arima_formula (df : DataFrame) (price : list Qc) (d0 days : Z) :
  close_values df = Ok (Fin <$> price) ->
  (30 <= length price)%nat ->
  Forall moderate price ->
  date_max df = TS d0 ->
  let last := (length price - 1)%nat in
  last_moving_average (Fin <$> price) = Ok (Fin (spec_moving_average price))
  /\ arima_trend (Fin <$> price)
     = Ok (Fin (spec_trend (fun i => nth i price 0%Qc) last 19))
  /\ predict_arima df days
     = Ok (spec_forecast d0 (spec_moving_average price)
             (spec_trend (fun i => nth i price 0%Qc) last 19) days)
  /\ (forall zs : list Z,
        price = Qc_of_Z <$> zs ->
        Int64.arima_trend zs
        = Ok (Fin (spec_trend (fun i => nth i price 0%Qc) last 19))).
Proof.
  intros Hclose Hlen Hmod Hdate last.
  assert (arima_trend (Fin <$> price)
          = Ok (Fin (spec_trend (fun i => nth i price 0%Qc) last 19))) as Htrend.
  { apply arima_trend_numeric. lia. }
  split; [|split; [done|split]].
  - apply last_moving_average_numeric. lia.
  - apply predict_arima_numeric; [done|lia|done].
  - intros zs Hzs. rewrite <- Htrend, Hzs. apply int64_trend_exact.
    by rewrite <- Hzs.
Qed.

(** * Constant series *)


Lemma smoothing_factors : (Q2Qc (3 # 10) + Q2Qc (7 # 10))%Qc = 1%Qc.
Proof. by apply Qc_is_canon. Qed.








(** * The last date bounds every date *)

Lemma ts_max_bound (l : list Timestamp) (d0 : Z) :
  foldr ts_max NaT l = TS d0 -> Forall (fun t => ts_gtb t (TS d0) = false) l.
Proof.
  revert d0. induction l as [|t l IH]; intros d0 H; [constructor|].
  simpl in H. destruct (foldr ts_max NaT l) as [y|] eqn:E.
  - specialize (IH y eq_refl).
    destruct t as [x|]; simpl in H; injection H as <-.
    + constructor; [simpl; lia|].
      eapply Forall_impl; [exact IH|]. intros [z|]; simpl; lia.
    + constructor; [done|exact IH].
  - destruct t as [x|]; simpl in H; [|done]. injection H as <-.
    constructor; [simpl; lia|].
    clear IH. revert E. induction l as [|t l IHl]; [constructor|].
    simpl. destruct t as [z|], (foldr ts_max NaT l); simpl; try done.
    intros _. constructor; [done|]. by apply IHl.
Qed.

(** * The pipeline on concrete requests *)

Global Instance moderate_dec (q : Qc) : Decision (moderate q).
Proof. unfold moderate. apply _. Defined.

Global Instance moderate_cell_dec (x : float) : Decision (moderate_cell x).
Proof. destruct x; simpl; apply _. Defined.

Lemma numeric_column_cons (q : Qc) (prices : list float) :
  Forall moderate_cell (Fin q :: prices) -> numeric_column (Fin q :: prices).
Proof. intros H. split; [|done]. exists q. left. Qed.



Lemma representable_2024 (d : Z) : 19000 <= d <= 20000 -> representable d.
Proof. unfold representable, timestamp_min_day, timestamp_max_day. lia. Qed.

Lemma foo_not_recognized : ~ recognized "foo".
Proof.
  unfold recognized. rewrite !elem_of_cons, elem_of_nil.
  intros [H|[H|[H|[H|[H|H]]]]]; done.
Qed.



(** One candle, any model: the caller sees status 500. *)
Lemma predict_stock_insufficient_data_witness :
  predict_stock_try iso_to_datetime None None (request "lstm" 5 one_candle)
  = Raise (HTTPException 400 "Insufficient historical data")
  /\ predict_stock iso_to_datetime py_str None None (request "lstm" 5 one_candle)
     = Raise (HTTPException 500 "400: Insufficient historical data").
Proof.
  apply (predict_stock_insufficient_data iso_to_datetime py_str None None
           (request "lstm" 5 one_candle) (frame_of one_candle)).
  - vm_compute. reflexivity.
  - vm_compute. lia.
Defined.

(** C3, as stated, fails: an unknown model on a single candle meets the
    length check first, so the error is the insufficient-data one and not
    the invalid-model one. *)
Lemma unknown_model_on_short_series :
  ~ recognized "foo"
  /\ predict_stock_try iso_to_datetime None None (request "foo" 5 one_candle)
     = Raise (HTTPException 400 "Insufficient historical data")
  /\ predict_stock_try iso_to_datetime None None (request "foo" 5 one_candle)
     <> Raise (HTTPException 400 "Invalid model")
  /\ predict_stock iso_to_datetime py_str None None (request "foo" 5 one_candle)
     <> Raise (HTTPException 400 "Invalid model").
Proof.
  split; [apply foo_not_recognized|].
  split; [vm_compute; reflexivity|].
  split; intros H; vm_compute in H; discriminate H.
Qed.

(** An unknown model on 30 candles. *)
Lemma predict_stock_unknown_model_witness :
  predict_stock_try iso_to_datetime None None (request "foo" 5 flat30)
  = Raise (HTTPException 400 "Invalid model").
Proof.
  apply (proj1 (predict_stock_unknown_model iso_to_datetime None None
                  (request "foo" 5 flat30) (frame_of flat30)
                  ltac:(vm_compute; reflexivity) foo_not_recognized)).
  vm_compute. lia.
Defined.

(** 60 candles with closes 0, 1, ..., 59, the last one dated 2024-02-29
    (day 19782): the point for 2024-03-01 is 61, where the continuation of
    the line is 60. *)
Lemma predict_linear_regression_on_a_line_witness :
  predict_linear_regression (frame_of ramp60) 2
  = Ok [ {| p_date := 19783; p_close := Fin (Qc_of_Z 61) |};
         {| p_date := 19784; p_close := Fin (Qc_of_Z 62) |} ].
Proof.
  destruct (predict_linear_regression_on_a_line (frame_of ramp60) (ramp 60)
              0%Qc 1%Qc 19782 2) as [H _].
  - vm_compute. reflexivity.
  - vm_compute. lia.
  - intros i Hi. unfold ramp in *.
    rewrite length_fmap, length_seqZ in Hi.
    rewrite list_lookup_fmap, lookup_seqZ_lt by lia. simpl.
    unfold Qc_of_nat. rewrite Z.add_0_l. f_equal. ring.
  - vm_compute. reflexivity.
  - lia.
  - rewrite H. vm_compute.
    do 2 f_equal; [|f_equal]; do 2 f_equal; by apply Qc_is_canon.
Defined.

(** C5, as stated, fails.  On 30 candles with closes 0, 1, ..., 29 the
    first prediction is not the one the trend over [smoothed[last-20]]
    gives. *)
Lemma predict_lstm_not_over_20_steps :
  close_values (frame_of ramp30) = Ok (Fin <$> ramp 30)
  /\ date_max (frame_of ramp30) = TS 19752
  /\ predict_lstm (frame_of ramp30) 1
     <> Ok (spec_forecast 19752 (spec_smoothed (ramp 30) 29)
              (spec_trend (spec_smoothed (ramp 30)) 29 20) 1).
Proof.
  split; [vm_compute; reflexivity|].
  split; [vm_compute; reflexivity|].
  intros H. vm_compute in H. discriminate H.
Qed.

(** The same 30 candles under the formula of the code. *)
Lemma predict_lstm_formula_witness :
  smoothing (Fin <$> ramp 30) = Ok (spec_smoothed_list (ramp 30) 30)
  /\ lstm_trend (spec_smoothed_list (ramp 30) 30)
     = Ok (Fin (spec_trend (spec_smoothed (ramp 30)) 29 19))
  /\ predict_lstm (frame_of ramp30) 2
     = Ok (spec_forecast 19752 (spec_smoothed (ramp 30) 29)
             (spec_trend (spec_smoothed (ramp 30)) 29 19) 2).
Proof.
  apply (predict_lstm_formula (frame_of ramp30) (ramp 30) 19752 2).
  - vm_compute. reflexivity.
  - vm_compute. lia.
  - vm_compute. reflexivity.
Defined.

(** C6, as stated, fails.  On the same candles the moving average is
    19.5 and the code's trend is (29 - 10) / 20, so the first prediction
    is 20.45, not the 20.5 that the trend over [price[last-20]] gives. *)
Lemma predict_arima_not_over_20_steps :
  close_values (frame_of ramp30) = Ok (Fin <$> ramp 30)
  /\ date_max (frame_of ramp30) = TS 19752
  /\ predict_arima (frame_of ramp30) 1
     = Ok [ {| p_date := 19753; p_close := Fin (Q2Qc (409 # 20)) |} ]
  /\ predict_arima (frame_of ramp30) 1
     <> Ok (spec_forecast 19752 (spec_moving_average (ramp 30))
              (spec_trend (fun i => nth i (ramp 30) 0%Qc) 29 20) 1).
Proof.
  split; [vm_compute; reflexivity|].
  split; [vm_compute; reflexivity|].
  split.
  - vm_compute. do 4 f_equal. by apply Qc_is_canon.
  - intros H. vm_compute in H. discriminate H.
Qed.

(** Beyond moderate closes the integer column does wrap around: when the
    last close is 2^62 and the 20th-last is -2^62, the 64-bit difference
    is -2^63 where the exact one is 2^63, and the trends have opposite
    signs. *)
Lemma int64_trend_wraps_around :
  Int64.arima_trend wide30 = Ok (Fin (Qc_of_Z (- 2 ^ 63) / Qc_of_Z 20)%Qc)
  /\ arima_trend (Fin <$> (Qc_of_Z <$> wide30))
     = Ok (Fin (Qc_of_Z (2 ^ 63) / Qc_of_Z 20)%Qc)
  /\ Int64.arima_trend wide30 <> arima_trend (Fin <$> (Qc_of_Z <$> wide30)).
Proof.
  split; [|split].
  - vm_compute. reflexivity.
  - vm_compute. reflexivity.
  - intros H. vm_compute in H. discriminate H.
Qed.

(** The 30 candles with closes 0 .. 29 under the formula of the code. *)
Lemma predict_arima_formula_witness :
  last_moving_average (Fin <$> ramp 30) = Ok (Fin (spec_moving_average (ramp 30)))
  /\ arima_trend (Fin <$> ramp 30)
     = Ok (Fin (spec_trend (fun i => nth i (ramp 30) 0%Qc) 29 19))
  /\ predict_arima (frame_of ramp30) 2
     = Ok (spec_forecast 19752 (spec_moving_average (ramp 30))
             (spec_trend (fun i => nth i (ramp 30) 0%Qc) 29 19) 2)
  /\ (forall zs : list Z,
        ramp 30 = Qc_of_Z <$> zs ->
        Int64.arima_trend zs
        = Ok (Fin (spec_trend (fun i => nth i (ramp 30) 0%Qc) 29 19))).
Proof.
  apply (predict_arima_formula (frame_of ramp30) (ramp 30) 19752 2).
  - vm_compute. reflexivity.
  - vm_compute. lia.
  - apply (bool_decide_unpack _). vm_compute. exact I.
  - vm_compute. reflexivity.
Defined.

(** "prophet" without the library on the 60 candles of the line: the
    response carries the two points of [predict_linear_regression]. *)
Lemma predict_stock_fallback_witness :
  predict_stock iso_to_datetime py_str None None
    (with_model "prophet" (request "prophet" 2 ramp60))
  = match predict_linear_regression (frame_of ramp60) 2 with
    | Ok preds =>
      Ok {| r_symbol := "AAPL"; r_model := "prophet"; predictions := preds |}
    | Raise e => Raise (HTTPException 500 (py_str e))
    end.
Proof.
  apply (proj1 (proj2 (predict_stock_fallback iso_to_datetime py_str None None
                         (request "prophet" 2 ramp60) "prophet"
                         (or_intror (conj eq_refl eq_refl))))).
  - vm_compute. reflexivity.
  - vm_compute. lia.
Defined.



(** C9, as stated, fails in three ways: a record without a close is
    prepared; a record without a date next to one that has a date is
    prepared (its date becomes [NaT]); and the empty list, in which no
    record misses anything, is refused. *)
Lemma prepare_dataframe_not_spec_malformed :
  (spec_malformed iso_to_datetime no_close
   /\ ~ fails (prepare_dataframe iso_to_datetime no_close))
  /\ (spec_malformed iso_to_datetime one_undated
      /\ ~ fails (prepare_dataframe iso_to_datetime one_undated))
  /\ (~ spec_malformed iso_to_datetime []
      /\ fails (prepare_dataframe iso_to_datetime [])).
Proof.
  repeat split.
  - apply Exists_cons_hd. right. intros [q Hq]. vm_compute in Hq. discriminate Hq.
  - intros [e He]. vm_compute in He. discriminate He.
  - apply Exists_cons_tl, Exists_cons_hd. left.
    intros (v & d & Hv & _). vm_compute in Hv. discriminate Hv.
  - intros [e He]. vm_compute in He. discriminate He.
  - intros H. inversion H.
  - exists (KeyError "date"). vm_compute. reflexivity.
Qed.

(** The record without a close is prepared. *)
Lemma prepare_dataframe_failure_witness :
  exists df, prepare_dataframe iso_to_datetime no_close = Ok df.
Proof.
  apply (proj2 (prepare_dataframe_failure iso_to_datetime no_close)).
  - done.
  - repeat constructor. exists (VStr "2024-01-02"), 19724.
    split; [vm_compute; reflexivity|].
    split; [done|vm_compute; reflexivity].
Defined.

(** * The smoothing loop on arbitrary floats *)

Lemma smooth_from_length (s : float) (ps : list float) :
  length (smooth_from s ps) = length ps.
Proof. revert s. induction ps as [|p ps IH]; intros s; simpl; [done|]. by rewrite IH. Qed.

Lemma smoothing_loop_general (prices : list float) (m : nat) :
  forall (k : nat) (init : list float) (s : float),
    (length init + 1 = k)%nat -> (k + m = length prices)%nat ->
    foldM (smooth_step prices) (init ++ [s]) (seqZ (Z.of_nat k) (Z.of_nat m))
    = Ok (init ++ s :: smooth_from s (drop k prices)).
Proof.
  induction m as [|m IH]; intros k init s Hk Hlen.
  - rewrite seqZ_nil by lia. simpl. by rewrite drop_ge by lia.
  - rewrite seqZ_cons by lia. simpl.
    destruct (lookup_lt_is_Some_2 prices k) as [p Hp]; [lia|].
    assert (smooth_step prices (init ++ [s]) (Z.of_nat k)
            = Ok ((init ++ [s]) ++ [smooth_next s p])) as ->.
    { unfold smooth_step.
      rewrite (getitem_nonneg _ _ p); [|lia|by rewrite Nat2Z.id].
      cbn [bind]. by rewrite getitem_last. }
    cbn [bind].
    replace (Z.succ (Z.of_nat k)) with (Z.of_nat (S k)) by lia.
    replace (Z.pred (Z.of_nat (S m))) with (Z.of_nat m) by lia.
    rewrite (IH (S k) (init ++ [s]) (smooth_next s p)).
    + rewrite (drop_S _ _ _ Hp). simpl. by rewrite <- app_assoc.
    + rewrite length_app. simpl. lia.
    + lia.
Qed.

Lemma smoothing_empty : smoothing [] = Raise IndexError.
Proof. reflexivity. Qed.

Lemma smoothing_general (p0 : float) (ps : list float) :
  smoothing (p0 :: ps) = Ok (p0 :: smooth_from p0 ps).
Proof.
  unfold smoothing. rewrite (getitem_nonneg _ _ p0) by done. cbn [bind].
  unfold range.
  replace (Z.of_nat (length (p0 :: ps)) - 1) with (Z.of_nat (length ps))
    by (simpl length; lia).
  exact (smoothing_loop_general (p0 :: ps) (length ps) 1 [] p0 eq_refl eq_refl).
Qed.

Lemma getitem_last_lookup {A} (l : list A) (x : A) :
  last l = Some x -> getitem l (-1) = Ok x.
Proof.
  intros Hlast. rewrite last_lookup in Hlast.
  apply lookup_lt_Some in Hlast as Hlt.
  apply (getitem_neg _ 1); [lia|].
  by replace (length l - 1)%nat with (pred (length l)) by lia.
Qed.

Lemma getitem_Ok {A} (l : list A) (k : nat) :
  (0 < k <= length l)%nat -> exists x, getitem l (- Z.of_nat k) = Ok x.
Proof.
  intros Hk. destruct (lookup_lt_is_Some_2 l (length l - k)) as [x Hx]; [lia|].
  exists x. by apply getitem_neg.
Qed.

Lemma getitem_short {A} (l : list A) (k : nat) :
  (length l < k)%nat -> getitem l (- Z.of_nat k) = Raise IndexError.
Proof.
  intros Hk. unfold getitem.
  destruct (Z.ltb_spec (- Z.of_nat k) 0); [|lia].
  destruct (Z.leb_spec 0 (Z.of_nat (length l) + - Z.of_nat k)); [lia|done].
Qed.

Lemma getitem_m1 {A} (l : list A) :
  (0 < length l)%nat -> exists x, getitem l (-1) = Ok x.
Proof. intros H. apply (getitem_Ok l 1). lia. Qed.

Lemma getitem_m20 {A} (l : list A) :
  (20 <= length l)%nat -> exists x, getitem l (-20) = Ok x.
Proof. intros H. apply (getitem_Ok l 20). lia. Qed.

Lemma getitem_m20_short {A} (l : list A) :
  (length l < 20)%nat -> getitem l (-20) = Raise IndexError.
Proof. intros H. by apply (getitem_short l 20). Qed.

Lemma rolling_mean_length (w : Z) (prices : list float) :
  length (rolling_mean w prices) = length prices.
Proof. unfold rolling_mean. rewrite length_fmap, range_0, length_seqZ. lia. Qed.

(** * What a returned forecast looks like *)

Lemma forecast_loop_inv (last : Timestamp) (f : Z -> float) (days : Z)
    (preds : list ForecastPoint) :
  mapM (fun i => make_point last i (f i)) (range 0 days) = Ok preds ->
  (days <= 0 /\ preds = [])
  \/ (0 < days /\ exists d0, last = TS d0
      /\ preds = (fun k => {| p_date := d0 + k; p_close := f (k - 1) |}) <$> seqZ 1 days).
Proof.
  intros H. destruct (Z.le_gt_cases days 0) as [Hle|Hgt].
  - left. split; [done|]. rewrite range_0, seqZ_nil in H by done.
    by injection H as <-.
  - right. split; [lia|]. destruct last as [d0|].
    + exists d0. split; [done|].
      rewrite (forecast_loop d0 f (fun k => f (k - 1))) in H.
      * by injection H as <-.
      * intros i. f_equal. lia.
    + rewrite range_0, seqZ_cons in H by lia. done.
Qed.

Lemma forecast_dates (d0 days : Z) (g : Z -> float) :
  p_date <$> ((fun k => {| p_date := d0 + k; p_close := g k |}) <$> seqZ 1 days)
  = seqZ (d0 + 1) days.
Proof.
  rewrite <- list_fmap_compose, <- (fmap_add_seqZ d0 1). by apply list_fmap_ext.
Qed.

(** X1.  Whenever [predict_lstm] returns, it returns all of the forecast or
    none of it: the empty list for a horizon that is not positive, and
    otherwise exactly [days] points dated with the consecutive days after
    the last historical date, which then exists. *)
Theorem predict_lstm_all_or_nothing (df : DataFrame) (days : Z)
    (preds : list ForecastPoint) :
  predict_lstm df days = Ok preds ->
  (days <= 0 /\ preds = [])
  \/ (0 < days /\ exists d0, date_max df = TS d0
      /\ p_date <$> preds = seqZ (d0 + 1) days).
Proof.
  unfold predict_lstm.
  destruct (close_values df) as [prices|]; simpl; [|done].
  destruct (smoothing prices) as [smoothed|]; simpl; [|done].
  destruct (getitem smoothed (-1)) as [last_value|]; simpl; [|done].
  destruct (lstm_trend smoothed) as [trend|]; simpl; [|done].
  intros H. apply forecast_loop_inv in H as [H|(Hd & d0 & Hd0 & ->)]; [by left|].
  right. split; [done|]. exists d0. split; [done|].
  apply (forecast_dates d0 days
           (fun k => (last_value + trend * float_of_Z (k - 1 + 1))%F)).
Qed.

(** X2.  The same for [predict_arima]. *)
Theorem predict_arima_all_or_nothing (df : DataFrame) (days : Z)
    (preds : list ForecastPoint) :
  predict_arima df days = Ok preds ->
  (days <= 0 /\ preds = [])
  \/ (0 < days /\ exists d0, date_max df = TS d0
      /\ p_date <$> preds = seqZ (d0 + 1) days).
Proof.
  unfold predict_arima.
  destruct (close_values df) as [prices|]; simpl; [|done].
  destruct (last_moving_average prices) as [last_ma|]; simpl; [|done].
  destruct (arima_trend prices) as [trend|]; simpl; [|done].
  intros H. apply forecast_loop_inv in H as [H|(Hd & d0 & Hd0 & ->)]; [by left|].
  right. split; [done|]. exists d0. split; [done|].
  apply (forecast_dates d0 days
           (fun k => (last_ma + trend * float_of_Z (k - 1 + 1))%F)).
Qed.

(** X3.  [predict_linear_regression] never returns for a horizon that is
    not positive (the empty array of future days is refused), and when it
    returns it gives exactly [days] points dated with the consecutive days
    after the last historical date. *)
Theorem predict_linear_regression_all_or_error (df : DataFrame) (days : Z)
    (preds : list ForecastPoint) :
  predict_linear_regression df days = Ok preds ->
  0 < days
  /\ exists d0, date_max df = TS d0 /\ p_date <$> preds = seqZ (d0 + 1) days.
Proof.
  unfold predict_linear_regression.
  destruct (close_values (tail 60 df)) as [y|]; simpl; [|done].
  destruct (fit _ y) as [m|]; simpl; [|done].
  rewrite range_1.
  destruct (Z.le_gt_cases days 0) as [Hle|Hgt].
  { rewrite seqZ_nil by done. done. }
  rewrite predict_nonempty by (rewrite seqZ_cons by lia; done).
  simpl bind. rewrite <- list_fmap_compose, enumerate_seqZ.
  destruct (date_max df) as [d0|].
  - rewrite (mapM_Ok _ (fun ip => {| p_date := d0 + (fst ip + 1); p_close := snd ip |}))
      by done.
    intros [= <-]. split; [lia|]. exists d0. split; [done|].
    rewrite <- !list_fmap_compose, <- (fmap_add_seqZ d0 1).
    apply list_fmap_ext. intros _ k _. simpl. lia.
  - rewrite seqZ_cons by lia. done.
Qed.

Lemma predict_lstm_all_or_nothing_witness :
  (2 <= 0 /\ points_of (predict_lstm (frame_of ramp30) 2) = [])
  \/ (0 < 2 /\ exists d0, date_max (frame_of ramp30) = TS d0
      /\ p_date <$> points_of (predict_lstm (frame_of ramp30) 2) = seqZ (d0 + 1) 2).
Proof.
  apply (predict_lstm_all_or_nothing (frame_of ramp30) 2).
  vm_compute. reflexivity.
Defined.

Lemma predict_arima_all_or_nothing_witness :
  (0 <= 0 /\ points_of (predict_arima (frame_of ramp30) 0) = [])
  \/ (0 < 0 /\ exists d0, date_max (frame_of ramp30) = TS d0
      /\ p_date <$> points_of (predict_arima (frame_of ramp30) 0) = seqZ (d0 + 1) 0).
Proof.
  apply (predict_arima_all_or_nothing (frame_of ramp30) 0).
  vm_compute. reflexivity.
Defined.

Lemma predict_linear_regression_all_or_error_witness :
  0 < 2
  /\ exists d0, date_max (frame_of ramp30) = TS d0
     /\ p_date <$> points_of (predict_linear_regression (frame_of ramp30) 2)
        = seqZ (d0 + 1) 2.
Proof.
  apply (predict_linear_regression_all_or_error (frame_of ramp30) 2).
  vm_compute. reflexivity.
Defined.

(** * Series shorter than the trend window *)

Lemma last_moving_average_general (prices : list float) :
  (20 <= length prices)%nat ->
  last_moving_average prices
  = Ok (fmean (drop (length prices - 20) prices)).
Proof.
  intros Hlen. unfold last_moving_average.
  apply (getitem_neg _ 1); rewrite rolling_mean_length; [lia|].
  unfold rolling_mean. rewrite range_0, list_lookup_fmap.
  rewrite lookup_seqZ_lt by lia. simpl.
  destruct (Z.ltb_spec (0 + Z.of_nat (length prices - 1) + 1) window);
    [unfold window in *; lia|].
  unfold window.
  replace (Z.to_nat (0 + Z.of_nat (length prices - 1) + 1 - 20))
    with (length prices - 20)%nat by lia.
  by rewrite take_ge by (rewrite length_drop; lia).
Qed.

Lemma lstm_trend_Ok (smoothed : list float) :
  (20 <= length smoothed)%nat -> exists trend, lstm_trend smoothed = Ok trend.
Proof.
  intros Hlen. unfold lstm_trend.
  destruct (getitem_m1 smoothed) as [s1 ->]; [lia|].
  destruct (getitem_m20 smoothed) as [s20 ->]; [lia|]. by eexists.
Qed.

Lemma arima_trend_Ok (prices : list float) :
  (20 <= length prices)%nat -> exists trend, arima_trend prices = Ok trend.
Proof.
  intros Hlen. unfold arima_trend.
  destruct (getitem_m1 prices) as [p1 ->]; [lia|].
  change (- window) with (-20).
  destruct (getitem_m20 prices) as [pw ->]; [lia|]. by eexists.
Qed.

Lemma forecast_loop_Ok (d0 : Z) (f : Z -> float) (days : Z) :
  exists preds, mapM (fun i => make_point (TS d0) i (f i)) (range 0 days) = Ok preds.
Proof.
  eexists. apply (forecast_loop d0 f (fun k => f (k - 1))).
  intros i. f_equal. lia.
Qed.

(** X4.  The two trend strategies index the 20th value from the end: on
    a frame with a numeric close column and a last date, and for a
    horizon whose dates are representable, they return when the series
    has at least 20 rows and raise [IndexError] when it has fewer,
    whether or not some closes are missing. *)
Theorem trend_strategies_need_20_rows (df : DataFrame) (prices : list float)
    (d0 days : Z) :
  close_values df = Ok prices ->
  numeric_column prices ->
  date_max df = TS d0 ->
  representable d0 ->
  representable (d0 + days) ->
  ((20 <= length prices)%nat ->
   (exists preds, predict_lstm df days = Ok preds)
   /\ (exists preds, predict_arima df days = Ok preds))
  /\ ((length prices < 20)%nat ->
      predict_lstm df days = Raise IndexError
      /\ predict_arima df days = Raise IndexError).
Proof.
  intros Hclose _ Hdate _ _. unfold predict_lstm, predict_arima.
  rewrite Hclose, Hdate. cbn [bind]. split; intros Hlen.
  - split.
    + destruct prices as [|p0 ps]; [simpl in Hlen; lia|].
      rewrite smoothing_general. cbn [bind].
      assert (20 <= length (p0 :: smooth_from p0 ps))%nat as Hsm
        by (simpl in *; rewrite smooth_from_length; lia).
      destruct (getitem_m1 (p0 :: smooth_from p0 ps)) as [lv ->]; [lia|].
      destruct (lstm_trend_Ok _ Hsm) as [trend ->]. cbn [bind].
      apply forecast_loop_Ok.
    + rewrite last_moving_average_general by done.
      destruct (arima_trend_Ok _ Hlen) as [trend ->]. cbn [bind].
      apply forecast_loop_Ok.
  - split.
    + destruct prices as [|p0 ps]; [done|].
      rewrite smoothing_general. cbn [bind].
      assert (length (p0 :: smooth_from p0 ps) < 20)%nat as Hsm
        by (simpl in *; rewrite smooth_from_length; lia).
      destruct (getitem_m1 (p0 :: smooth_from p0 ps)) as [lv Hlv]; [simpl; lia|].
      rewrite Hlv. cbn [bind]. unfold lstm_trend. rewrite Hlv. cbn [bind].
      by rewrite getitem_m20_short.
    + unfold last_moving_average.
      destruct prices as [|p0 ps]; [done|].
      destruct (getitem_m1 (rolling_mean window (p0 :: ps))) as [ma ->].
      { rewrite rolling_mean_length. simpl. lia. }
      cbn [bind]. unfold arima_trend.
      destruct (getitem_m1 (p0 :: ps)) as [p1 ->]; [simpl; lia|]. cbn [bind].
      change (- window) with (-20). by rewrite getitem_m20_short.
Qed.

Lemma trend_strategies_need_20_rows_witness :
  ((20 <= length (Fin <$> ramp 19))%nat ->
   (exists preds, predict_lstm (frame_of ramp19) 5 = Ok preds)
   /\ (exists preds, predict_arima (frame_of ramp19) 5 = Ok preds))
  /\ ((length (Fin <$> ramp 19) < 20)%nat ->
      predict_lstm (frame_of ramp19) 5 = Raise IndexError
      /\ predict_arima (frame_of ramp19) 5 = Raise IndexError).
Proof.
  apply (trend_strategies_need_20_rows (frame_of ramp19) (Fin <$> ramp 19) 19741 5).
  - vm_compute. reflexivity.
  - apply numeric_column_cons, (bool_decide_unpack _). vm_compute. exact I.
  - vm_compute. reflexivity.
  - apply representable_2024. lia.
  - apply representable_2024. lia.
Defined.

(** * Missing closes *)

Lemma fadd_NaN_r (x : float) : (x + NaN)%F = NaN.
Proof. by destruct x. Qed.

Lemma fmul_NaN_r (x : float) : (x * NaN)%F = NaN.
Proof. by destruct x. Qed.

Lemma smooth_next_NaN_l (p : float) : smooth_next NaN p = NaN.
Proof. unfold smooth_next. simpl. apply fadd_NaN_r. Qed.

Lemma smooth_next_NaN_r (s : float) : smooth_next s NaN = NaN.
Proof. unfold smooth_next. by destruct s. Qed.

(** Once the smoothed value or a later price is [nan], the last smoothed
    value is [nan]. *)
Lemma last_smooth_from_NaN (ps : list float) :
  forall s, s = NaN \/ NaN ∈ ps -> last (s :: smooth_from s ps) = Some NaN.
Proof.
  induction ps as [|p ps IH]; intros s H.
  - destruct H as [->|H]; [done|]. by apply elem_of_nil in H.
  - simpl smooth_from. rewrite last_cons_cons. apply IH.
    destruct H as [->|H]; [left; apply smooth_next_NaN_l|].
    apply elem_of_cons in H as [<-|H]; [left; apply smooth_next_NaN_r|by right].
Qed.

Lemma nan_loop (d0 days : Z) (f : Z -> float) :
  (forall i, f i = NaN) ->
  mapM (fun i => make_point (TS d0) i (f i)) (range 0 days)
  = Ok (nan_forecast d0 days).
Proof. intros Hf. by apply (forecast_loop d0 f (fun _ => NaN)). Qed.

(** X5.  [predict_lstm] does not reject a missing close: when a cell of
    a numeric close column is [nan], a close that is missing or null
    among closes that are numbers (and the series has its 20 rows, a last
    date and a horizon whose dates are representable), the strategy
    returns, and every predicted close is [nan]. *)
Theorem predict_lstm_missing_close (df : DataFrame) (prices : list float)
    (d0 days : Z) :
  close_values df = Ok prices ->
  numeric_column prices ->
  NaN ∈ prices ->
  (20 <= length prices)%nat ->
  date_max df = TS d0 ->
  representable d0 ->
  representable (d0 + days) ->
  predict_lstm df days = Ok (nan_forecast d0 days).
Proof.
  intros Hclose _ Hnan Hlen Hdate _ _. unfold predict_lstm.
  rewrite Hclose, Hdate. cbn [bind].
  destruct prices as [|p0 ps]; [simpl in Hlen; lia|].
  rewrite smoothing_general. cbn [bind].
  assert (last (p0 :: smooth_from p0 ps) = Some NaN) as Hlast.
  { apply last_smooth_from_NaN. by apply elem_of_cons in Hnan as [<-|H]; [left|right]. }
  rewrite (getitem_last_lookup _ _ Hlast). cbn [bind].
  unfold lstm_trend. rewrite (getitem_last_lookup _ _ Hlast). cbn [bind].
  destruct (getitem_m20 (p0 :: smooth_from p0 ps)) as [s20 ->].
  { simpl in *. rewrite smooth_from_length. lia. }
  cbn [bind]. by apply nan_loop.
Qed.

Lemma predict_lstm_missing_close_witness :
  predict_lstm (frame_of ramp_then_gap) 3 = Ok (nan_forecast 19752 3).
Proof.
  apply (predict_lstm_missing_close (frame_of ramp_then_gap)
           ((Fin <$> ramp 29) ++ [NaN]) 19752 3).
  - vm_compute. reflexivity.
  - apply numeric_column_cons, (bool_decide_unpack _). vm_compute. exact I.
  - apply elem_of_app. right. left.
  - vm_compute. lia.
  - vm_compute. reflexivity.
  - apply representable_2024. lia.
  - apply representable_2024. lia.
Defined.

Lemma fsum_NaN (l : list float) : NaN ∈ l -> fsum l = NaN.
Proof.
  unfold fsum. induction l as [|x l IH]; intros H; [by apply elem_of_nil in H|].
  simpl. apply elem_of_cons in H as [<-|H]; [done|].
  rewrite (IH H). apply fadd_NaN_r.
Qed.

(** X6.  [predict_arima] does not reject a missing close either: when a
    cell among the last 20 closes of a numeric close column is [nan] (and
    the dates of the horizon are representable) the strategy returns, and
    every predicted close is [nan]. *)
Theorem predict_arima_missing_close (df : DataFrame) (prices : list float)
    (d0 days : Z) :
  close_values df = Ok prices ->
  numeric_column prices ->
  (20 <= length prices)%nat ->
  NaN ∈ drop (length prices - 20) prices ->
  date_max df = TS d0 ->
  representable d0 ->
  representable (d0 + days) ->
  predict_arima df days = Ok (nan_forecast d0 days).
Proof.
  intros Hclose _ Hlen Hnan Hdate _ _. unfold predict_arima.
  rewrite Hclose, Hdate. cbn [bind].
  rewrite last_moving_average_general by done. cbn [bind].
  destruct (arima_trend_Ok _ Hlen) as [trend ->]. cbn [bind].
  apply nan_loop. intros i. unfold fmean. by rewrite (fsum_NaN _ Hnan).
Qed.

Lemma predict_arima_missing_close_witness :
  predict_arima (frame_of ramp_then_gap) 3 = Ok (nan_forecast 19752 3).
Proof.
  apply (predict_arima_missing_close (frame_of ramp_then_gap)
           ((Fin <$> ramp 29) ++ [NaN]) 19752 3).
  - vm_compute. reflexivity.
  - apply numeric_column_cons, (bool_decide_unpack _). vm_compute. exact I.
  - vm_compute. lia.
  - apply list_elem_of_lookup. exists 19%nat. vm_compute. reflexivity.
  - vm_compute. reflexivity.
  - apply representable_2024. lia.
  - apply representable_2024. lia.
Defined.

Lemma mapM_finite_value_NaN (y : list float) :
  NaN ∈ y -> mapM finite_value y = Raise ValueError.
Proof.
  induction y as [|x y IH]; intros H; [by apply elem_of_nil in H|].
  simpl. destruct x as [q|]; simpl; [|done].
  apply elem_of_cons in H as [H|H]; [done|]. by rewrite (IH H).
Qed.

(** X7.  [predict_linear_regression] does reject it: when a cell among
    the (at most 60) closes of the training window is [nan], the fit
    raises [ValueError], whatever the horizon. *)
Theorem predict_linear_regression_missing_close (df : DataFrame)
    (y : list float) (days : Z) :
  close_values (tail 60 df) = Ok y ->
  NaN ∈ y ->
  predict_linear_regression df days = Raise ValueError.
Proof.
  intros Hclose Hnan. unfold predict_linear_regression.
  rewrite Hclose. cbn [bind]. unfold fit.
  by rewrite (mapM_finite_value_NaN _ Hnan).
Qed.

Lemma predict_linear_regression_missing_close_witness :
  predict_linear_regression (frame_of ramp_then_gap) 3 = Raise ValueError.
Proof.
  apply (predict_linear_regression_missing_close (frame_of ramp_then_gap)
           ((Fin <$> ramp 29) ++ [NaN]) 3).
  - vm_compute. reflexivity.
  - apply elem_of_app. right. left.
Defined.

(** * The moving average looks at the last 20 closes only *)

Lemma getitem_drop {A} (l : list A) (j k : nat) :
  (0 < k)%nat -> (j + k <= length l)%nat ->
  getitem (drop j l) (- Z.of_nat k) = getitem l (- Z.of_nat k).
Proof.
  intros Hk Hj.
  destruct (lookup_lt_is_Some_2 l (length l - k)) as [x Hx]; [lia|].
  rewrite (getitem_neg l k x) by (done || lia).
  apply getitem_neg; rewrite length_drop; [lia|].
  rewrite lookup_drop. rewrite <- Hx. f_equal. lia.
Qed.

Lemma arima_trend_tail (prices : list float) :
  (20 <= length prices)%nat ->
  arima_trend prices = arima_trend (drop (length prices - 20) prices).
Proof.
  intros Hlen. unfold arima_trend. change (- window) with (- Z.of_nat 20).
  change (-1) with (- Z.of_nat 1).
  by rewrite !getitem_drop by lia.
Qed.

(** X8.  In exact arithmetic, [predict_arima] reads nothing but the
    last 20 closes and the last date: two frames of at least 20 rows with
    numeric close columns (so that neither column wraps around nor is one
    of objects) that agree on those get the same outcome, whatever their
    earlier closes and their lengths. *)
Theorem predict_arima_last_20 (df df' : DataFrame) (prices prices' : list float)
    (days : Z) :
  close_values df = Ok prices ->
  close_values df' = Ok prices' ->
  numeric_column prices ->
  numeric_column prices' ->
  (20 <= length prices)%nat ->
  (20 <= length prices')%nat ->
  drop (length prices - 20) prices = drop (length prices' - 20) prices' ->
  date_max df = date_max df' ->
  predict_arima df days = predict_arima df' days.
Proof.
  intros Hc Hc' _ _ Hlen Hlen' Htail Hdate. unfold predict_arima.
  rewrite Hc, Hc', Hdate. cbn [bind].
  rewrite !last_moving_average_general by done.
  rewrite (arima_trend_tail prices), (arima_trend_tail prices') by done.
  by rewrite Htail.
Qed.

Lemma predict_arima_last_20_witness :
  predict_arima (frame_of ramp30) 3 = predict_arima (frame_of ramp30_other_start) 3.
Proof.
  apply (predict_arima_last_20 (frame_of ramp30) (frame_of ramp30_other_start)
           (closes_of (close_values (frame_of ramp30)))
           (closes_of (close_values (frame_of ramp30_other_start)))).
  - vm_compute. reflexivity.
  - vm_compute. reflexivity.
  - split; [|apply (bool_decide_unpack _); vm_compute; exact I].
    exists (Qc_of_Z 29). apply list_elem_of_lookup. exists 29%nat.
    vm_compute. reflexivity.
  - split; [|apply (bool_decide_unpack _); vm_compute; exact I].
    exists (Qc_of_Z 29). apply list_elem_of_lookup. exists 29%nat.
    vm_compute. reflexivity.
  - vm_compute. lia.
  - vm_compute. lia.
  - vm_compute. reflexivity.
  - vm_compute. reflexivity.
Defined.

(** * Change of unit and origin of the prices *)

Lemma nth_affine (s c : Qc) (price : list Qc) (i : nat) :
  (i < length price)%nat ->
  nth i (affine s c <$> price) 0%Qc = affine s c (nth i price 0%Qc).
Proof.
  intros Hi. destruct (lookup_lt_is_Some_2 price i Hi) as [p Hp].
  rewrite (nth_lookup_Some _ _ _ _ Hp).
  apply nth_lookup_Some. by rewrite list_lookup_fmap, Hp.
Qed.

Lemma spec_smoothed_affine (s c : Qc) (price : list Qc) (i : nat) :
  (i < length price)%nat ->
  spec_smoothed (affine s c <$> price) i = affine s c (spec_smoothed price i).
Proof.
  induction i as [|i IH]; intros Hi; simpl.
  - by apply nth_affine.
  - rewrite IH by lia. rewrite nth_affine by done. unfold affine.
    set (a := Q2Qc (3 # 10)). set (b := Q2Qc (7 # 10)).
    set (p := nth (S i) price 0%Qc). set (sm := spec_smoothed price i).
    replace (a * (s * p + c) + b * (s * sm + c))%Qc
      with (s * (a * p + b * sm) + (a + b) * c)%Qc by ring.
    unfold a, b. rewrite smoothing_factors. ring.
Qed.

Lemma spec_trend_affine (s c : Qc) (series series' : nat -> Qc) (last back : nat) :
  series' last = affine s c (series last) ->
  series' (last - back)%nat = affine s c (series (last - back)%nat) ->
  spec_trend series' last back = (s * spec_trend series last back)%Qc.
Proof.
  intros H1 H2. unfold spec_trend. rewrite H1, H2. unfold affine.
  field. by apply Qc_of_Z_nonzero.
Qed.

Lemma spec_moving_average_affine (s c : Qc) (price : list Qc) :
  (20 <= length price)%nat ->
  spec_moving_average (affine s c <$> price)
  = affine s c (spec_moving_average price).
Proof.
  intros Hlen. unfold spec_moving_average.
  rewrite length_fmap, <- fmap_drop.
  replace (affine s c <$> drop (length price - 20) price)
    with ((fun x => c + s * x)%Qc <$> drop (length price - 20) price).
  2:{ apply list_fmap_ext. intros _ x _. unfold affine. ring. }
  rewrite Qcsum_affine, length_drop.
  replace (length price - (length price - 20))%nat with 20%nat by lia.
  change (Qc_of_nat 20) with (Qc_of_Z 20). unfold affine.
  field. by apply Qc_of_Z_nonzero.
Qed.

Lemma spec_forecast_affine (s c : Qc) (d0 : Z) (base trend : Qc) (days : Z) :
  spec_forecast d0 (affine s c base) (s * trend)%Qc days
  = affine_point s c <$> spec_forecast d0 base trend days.
Proof.
  unfold spec_forecast. rewrite <- list_fmap_compose.
  apply list_fmap_ext. intros _ k _. unfold affine_point, affine. simpl.
  do 2 f_equal. ring.
Qed.

(** X9.  [predict_lstm] commutes with a change of unit and origin of the
    prices: if every close [p] of a numeric series becomes [s * p + c]
    and the last date stays, every predicted close [v] becomes
    [s * v + c]. *)
Theorem predict_lstm_affine (df df' : DataFrame) (price : list Qc)
    (s c : Qc) (d0 days : Z) :
  close_values df = Ok (Fin <$> price) ->
  close_values df' = Ok (Fin <$> (affine s c <$> price)) ->
  (20 <= length price)%nat ->
  date_max df = TS d0 ->
  date_max df' = TS d0 ->
  predict_lstm df' days
  = Ok (affine_point s c <$> points_of (predict_lstm df days)).
Proof.
  intros Hc Hc' Hlen Hd Hd'.
  rewrite (predict_lstm_numeric df price d0 days Hc Hlen Hd).
  rewrite (predict_lstm_numeric df' _ d0 days Hc') by (rewrite ?length_fmap; done).
  simpl points_of. rewrite length_fmap, <- spec_forecast_affine.
  rewrite spec_smoothed_affine by lia.
  by rewrite (spec_trend_affine s c (spec_smoothed price))
    by (apply spec_smoothed_affine; lia).
Qed.

Lemma predict_lstm_affine_witness :
  predict_lstm (frame_of ramp30_affine) 3
  = Ok (affine_point (Qc_of_Z 2) (Qc_of_Z 3)
          <$> points_of (predict_lstm (frame_of ramp30) 3)).
Proof.
  apply (predict_lstm_affine (frame_of ramp30) (frame_of ramp30_affine)
           (ramp 30) (Qc_of_Z 2) (Qc_of_Z 3) 19752 3).
  - vm_compute. reflexivity.
  - vm_compute. reflexivity.
  - vm_compute. lia.
  - vm_compute. reflexivity.
  - vm_compute. reflexivity.
Defined.

(** X10.  [predict_arima] commutes with the same change of the prices. *)
Theorem predict_arima_affine (df df' : DataFrame) (price : list Qc)
    (s c : Qc) (d0 days : Z) :
  close_values df = Ok (Fin <$> price) ->
  close_values df' = Ok (Fin <$> (affine s c <$> price)) ->
  (20 <= length price)%nat ->
  date_max df = TS d0 ->
  date_max df' = TS d0 ->
  predict_arima df' days
  = Ok (affine_point s c <$> points_of (predict_arima df days)).
Proof.
  intros Hc Hc' Hlen Hd Hd'.
  rewrite (predict_arima_numeric df price d0 days Hc Hlen Hd).
  rewrite (predict_arima_numeric df' _ d0 days Hc') by (rewrite ?length_fmap; done).
  simpl points_of. rewrite length_fmap, <- spec_forecast_affine.
  rewrite spec_moving_average_affine by done.
  by rewrite (spec_trend_affine s c (fun i => nth i price 0%Qc))
    by (apply nth_affine; lia).
Qed.

Lemma predict_arima_affine_witness :
  predict_arima (frame_of ramp30_affine) 3
  = Ok (affine_point (Qc_of_Z 2) (Qc_of_Z 3)
          <$> points_of (predict_arima (frame_of ramp30) 3)).
Proof.
  apply (predict_arima_affine (frame_of ramp30) (frame_of ramp30_affine)
           (ramp 30) (Qc_of_Z 2) (Qc_of_Z 3) 19752 3).
  - vm_compute. reflexivity.
  - vm_compute. reflexivity.
  - vm_compute. lia.
  - vm_compute. reflexivity.
  - vm_compute. reflexivity.
Defined.

Lemma Qcsum_zip_scale (s : Qc) (g : Qc -> Qc -> Qc) (xs ys : list Qc) :
  Qcsum (zip_with (fun x y => s * g x y)%Qc xs ys)
  = (s * Qcsum (zip_with g xs ys))%Qc.
Proof.
  revert ys. induction xs as [|x xs IH]; intros [|y ys]; simpl; try ring.
  fold (Qcsum (zip_with (fun x y => s * g x y)%Qc xs ys)).
  fold (Qcsum (zip_with g xs ys)). rewrite IH. ring.
Qed.

Lemma mean_affine (s c : Qc) (ys : list Qc) :
  ys <> [] -> mean (affine s c <$> ys) = affine s c (mean ys).
Proof.
  intros Hne. unfold mean.
  replace (affine s c <$> ys) with ((fun x => c + s * x)%Qc <$> ys).
  2:{ apply list_fmap_ext. intros _ x _. unfold affine. ring. }
  rewrite Qcsum_affine, length_fmap. unfold affine.
  field. apply Qc_of_nat_nonzero. destruct ys; [done|simpl; lia].
Qed.

(** The fit of the changed sample: the slope is scaled and the
    intercept follows the change. *)
Lemma fit_affine (s c : Qc) (X : list Z) (ys : list Qc) (m : LinearRegression) :
  ys <> [] ->
  fit X (Fin <$> ys) = Ok m ->
  fit X (Fin <$> (affine s c <$> ys))
  = Ok {| coef_ := (s * coef_ m)%Qc; intercept_ := affine s c (intercept_ m) |}.
Proof.
  intros Hne. unfold fit. rewrite !mapM_finite_value. cbn [bind].
  destruct X as [|x0 X'] eqn:E; [done|]. rewrite <- E. clear E.
  set (xs := Qc_of_Z <$> X). rewrite mean_affine by done.
  assert (sxy (mean xs) (affine s c (mean ys)) xs (affine s c <$> ys)
          = (s * sxy (mean xs) (mean ys) xs ys)%Qc) as ->.
  { unfold sxy. rewrite zip_with_fmap_r, <- Qcsum_zip_scale. f_equal.
    apply zip_with_ext; [|done..]. intros x y. unfold affine. ring. }
  intros [= <-]. simpl.
  destruct (decide (sxx (mean xs) xs = 0%Qc)) as [H0|Hn0].
  - f_equal. f_equal; unfold affine; ring.
  - f_equal. f_equal; unfold affine; field; done.
Qed.

(** X11.  [predict_linear_regression] commutes with the same change of
    the prices of its training window. *)
Theorem predict_linear_regression_affine (df df' : DataFrame) (ys : list Qc)
    (s c : Qc) (d0 days : Z) :
  close_values (tail 60 df) = Ok (Fin <$> ys) ->
  close_values (tail 60 df') = Ok (Fin <$> (affine s c <$> ys)) ->
  ys <> [] ->
  date_max df = TS d0 ->
  date_max df' = TS d0 ->
  0 < days ->
  predict_linear_regression df' days
  = Ok (affine_point s c <$> points_of (predict_linear_regression df days)).
Proof.
  intros Hc Hc' Hne Hd Hd' Hdays.
  destruct (fit_numeric (range 0 (Z.of_nat (length ys))) ys) as [m Hm].
  { destruct ys; [done|]. rewrite range_0, seqZ_cons by (simpl; lia). done. }
  rewrite (predict_linear_regression_numeric df ys m d0 days Hc Hm Hd Hdays).
  rewrite (predict_linear_regression_numeric df' (affine s c <$> ys)
             {| coef_ := (s * coef_ m)%Qc; intercept_ := affine s c (intercept_ m) |}
             d0 days Hc'); [| |done|done].
  - simpl points_of. rewrite <- list_fmap_compose. f_equal.
    apply list_fmap_ext. intros _ k _. unfold affine_point, affine. simpl.
    rewrite length_fmap. do 2 f_equal. ring.
  - rewrite length_fmap. by apply fit_affine.
Qed.

Lemma predict_linear_regression_affine_witness :
  predict_linear_regression (frame_of ramp30_affine) 3
  = Ok (affine_point (Qc_of_Z 2) (Qc_of_Z 3)
          <$> points_of (predict_linear_regression (frame_of ramp30) 3)).
Proof.
  apply (predict_linear_regression_affine (frame_of ramp30) (frame_of ramp30_affine)
           (ramp 30) (Qc_of_Z 2) (Qc_of_Z 3) 19752 3).
  - vm_compute. reflexivity.
  - vm_compute. reflexivity.
  - discriminate.
  - vm_compute. reflexivity.
  - vm_compute. reflexivity.
  - lia.
Defined.

Lemma replicate_on_line (c : Qc) (n : nat) :
  replicate n c = (fun x => c + 0 * Qc_of_Z x)%Qc <$> seqZ 0 (Z.of_nat n).
Proof.
  apply list_eq. intros i. rewrite list_lookup_fmap.
  destruct (decide (i < n)%nat) as [Hi|Hi].
  - rewrite lookup_seqZ_lt by lia. simpl. rewrite lookup_replicate_2 by done.
    f_equal. ring.
  - rewrite lookup_seqZ_ge by lia. simpl. apply lookup_ge_None.
    rewrite length_replicate. lia.
Qed.

(** X12.  In exact arithmetic, on a training window of at least two
    closes that all equal [c] the fitted slope is zero and every point
    predicted by [predict_linear_regression] equals [c] (in binary64, up
    to the rounding of the least-squares solver). *)
Theorem predict_linear_regression_constant (df : DataFrame) (c : Qc) (n : nat)
    (d0 days : Z) :
  close_values (tail 60 df) = Ok (replicate n (Fin c)) ->
  (2 <= n)%nat ->
  date_max df = TS d0 ->
  0 < days ->
  fit (range 0 (Z.of_nat n)) (replicate n (Fin c))
  = Ok {| coef_ := 0%Qc; intercept_ := c |}
  /\ predict_linear_regression df days
     = Ok ((fun k => {| p_date := d0 + k; p_close := Fin c |}) <$> seqZ 1 days).
Proof.
  intros Hclose Hn Hdate Hdays.
  assert (Hfit : fit (range 0 (Z.of_nat n)) (Fin <$> replicate n c)
                 = Ok {| coef_ := 0%Qc; intercept_ := c |}).
  { rewrite (replicate_on_line c n) at 1. rewrite range_0.
    apply fit_line, sxx_days_nonzero. lia. }
  rewrite <- fmap_replicate in *. split; [done|].
  rewrite (predict_linear_regression_numeric df (replicate n c)
             {| coef_ := 0%Qc; intercept_ := c |} d0 days Hclose);
    [|by rewrite length_replicate|done|done].
  f_equal. apply list_fmap_ext. intros _ k _. simpl. do 2 f_equal. ring.
Qed.

Lemma predict_linear_regression_constant_witness :
  fit (range 0 (Z.of_nat 30)) (replicate 30 (Fin (Qc_of_Z 5)))
  = Ok {| coef_ := 0%Qc; intercept_ := Qc_of_Z 5 |}
  /\ predict_linear_regression (frame_of flat30) 2
     = Ok ((fun k => {| p_date := 19752 + k; p_close := Fin (Qc_of_Z 5) |})
             <$> seqZ 1 2).
Proof.
  apply (predict_linear_regression_constant (frame_of flat30) (Qc_of_Z 5) 30 19752 2).
  - vm_compute. reflexivity.
  - lia.
  - vm_compute. reflexivity.
  - lia.
Defined.

(** * Every strategy dates its points after the history *)

Lemma dates_dated_after (df : DataFrame) (d0 days : Z) (preds : list ForecastPoint) :
  date_max df = TS d0 ->
  p_date <$> preds = seqZ (d0 + 1) days ->
  dated_after df preds.
Proof.
  intros Hd Hdates p Hp. exists d0. split; [done|].
  assert (p_date p ∈ seqZ (d0 + 1) days) as Hin.
  { rewrite <- Hdates. by apply list_elem_of_fmap_2. }
  apply elem_of_seqZ in Hin. lia.
Qed.

Lemma dated_after_nil (df : DataFrame) : dated_after df [].
Proof. intros p Hp. by apply elem_of_nil in Hp. Qed.

Lemma predict_lstm_dated_after df days preds :
  predict_lstm df days = Ok preds -> dated_after df preds.
Proof.
  unfold predict_lstm.
  destruct (close_values df) as [prices|]; simpl; [|done].
  destruct (smoothing prices) as [smoothed|]; simpl; [|done].
  destruct (getitem smoothed (-1)) as [last_value|]; simpl; [|done].
  destruct (lstm_trend smoothed) as [trend|]; simpl; [|done].
  intros H. apply forecast_loop_inv in H as [[_ ->]|(Hd & d0 & Hd0 & ->)].
  - apply dated_after_nil.
  - apply (dates_dated_after df d0 days); [done|]. apply forecast_dates.
Qed.

Lemma predict_arima_dated_after df days preds :
  predict_arima df days = Ok preds -> dated_after df preds.
Proof.
  unfold predict_arima.
  destruct (close_values df) as [prices|]; simpl; [|done].
  destruct (last_moving_average prices) as [last_ma|]; simpl; [|done].
  destruct (arima_trend prices) as [trend|]; simpl; [|done].
  intros H. apply forecast_loop_inv in H as [[_ ->]|(Hd & d0 & Hd0 & ->)].
  - apply dated_after_nil.
  - apply (dates_dated_after df d0 days); [done|]. apply forecast_dates.
Qed.

Lemma predict_linear_regression_dated_after df days preds :
  predict_linear_regression df days = Ok preds -> dated_after df preds.
Proof.
  unfold predict_linear_regression.
  destruct (close_values (tail 60 df)) as [y|]; simpl; [|done].
  destruct (fit _ y) as [m|]; simpl; [|done].
  rewrite range_1.
  destruct (Z.le_gt_cases days 0) as [Hle|Hgt].
  { rewrite seqZ_nil by done. done. }
  rewrite predict_nonempty by (rewrite seqZ_cons by lia; done).
  simpl bind. rewrite <- list_fmap_compose, enumerate_seqZ.
  destruct (date_max df) as [d0|] eqn:Hd0.
  - rewrite (mapM_Ok _ (fun ip => {| p_date := d0 + (fst ip + 1); p_close := snd ip |}))
      by done.
    intros [= <-]. apply (dates_dated_after df d0 days); [done|].
    rewrite <- !list_fmap_compose, <- (fmap_add_seqZ d0 1).
    apply list_fmap_ext. intros _ k _. simpl. lia.
  - rewrite seqZ_cons by lia. done.
Qed.

(** X13.  What an installed library returns reaches the caller filtered
    and cut: for a horizon that is not negative, [forecast_with] returns
    at most [days] points, and each of them lies after the last historical
    date; with no historical date at all it returns no point. *)
Theorem forecast_with_bounds (lib : Forecaster) (df : DataFrame) (days : Z)
    (preds : list ForecastPoint) :
  forecast_with lib df days = Ok preds ->
  0 <= days ->
  Z.of_nat (length preds) <= days
  /\ dated_after df preds
  /\ (date_max df = NaT -> preds = []).
Proof.
  intros H Hdays. split; [|split].
  - revert H. unfold forecast_with.
    destruct (date_close df) as [frame|]; simpl; [|done].
    destruct (lib frame days) as [forecast|]; simpl; [|done].
    destruct (mapM _ _) as [ps|]; simpl; [|done].
    intros [= <-]. by apply slice_to_length.
  - by apply (forecast_with_dated_after lib df days).
  - intros Hnat. apply (forecast_with_dated_after lib df days) in H.
    destruct preds as [|p preds]; [done|].
    destruct (H p) as (d0 & Hd0 & _); [left|]. congruence.
Qed.

Lemma forecast_with_bounds_witness :
  Z.of_nat (length (points_of (forecast_with flat_forecaster (frame_of flat30) 3))) <= 3
  /\ dated_after (frame_of flat30)
       (points_of (forecast_with flat_forecaster (frame_of flat30) 3))
  /\ (date_max (frame_of flat30) = NaT ->
      points_of (forecast_with flat_forecaster (frame_of flat30) 3) = []).
Proof.
  apply (forecast_with_bounds flat_forecaster (frame_of flat30) 3).
  - vm_compute. reflexivity.
  - lia.
Defined.

(** * More on the dispatcher *)

Section Outcomes.

Variable to_datetime : value -> option Z.
Variable exn_str : exn -> string.
Variable NeuralProphet : option Forecaster.
Variable Prophet : option Forecaster.

Lemma advanced_dated_after (lib : option Forecaster) df days preds :
  match lib with
  | None => predict_linear_regression df days
  | Some l =>
    match forecast_with l df days with
    | Ok predictions => Ok predictions
    | Raise e => predict_linear_regression df days
    end
  end = Ok preds ->
  dated_after df preds.
Proof.
  destruct lib as [l|]; [|apply predict_linear_regression_dated_after].
  destruct (forecast_with l df days) as [ps|] eqn:E.
  - intros [= <-]. by apply (forecast_with_dated_after l df days).
  - apply predict_linear_regression_dated_after.
Qed.

(** What a success of the [try] block means. *)
Lemma predict_stock_try_Ok (request : PredictionRequest) (r : Response) :
  predict_stock_try to_datetime NeuralProphet Prophet request = Ok r ->
  r_symbol r = symbol request
  /\ r_model r = model request
  /\ recognized (model request)
  /\ exists df,
       prepare_dataframe to_datetime (historical request) = Ok df
       /\ (30 <= len df)%nat
       /\ dated_after df (predictions r).
Proof.
  unfold predict_stock_try.
  destruct (prepare_dataframe to_datetime (historical request)) as [df|]; simpl; [|done].
  destruct (Nat.ltb_spec (len df) 30) as [|Hlen]; [done|].
  unfold recognized.
  destruct (String.eqb_spec (model request) "neural_prophet") as [E|_].
  { destruct (predict_neural_prophet _ _ _) as [ps|] eqn:Eps; simpl; [|done].
    intros [= <-]. simpl. rewrite E. repeat split; [set_solver|].
    exists df. repeat split; [done|]. by apply advanced_dated_after in Eps. }
  destruct (String.eqb_spec (model request) "prophet") as [E|_].
  { destruct (predict_prophet _ _ _) as [ps|] eqn:Eps; simpl; [|done].
    intros [= <-]. simpl. rewrite E. repeat split; [set_solver|].
    exists df. repeat split; [done|]. by apply advanced_dated_after in Eps. }
  destruct (String.eqb_spec (model request) "lstm") as [E|_].
  { destruct (predict_lstm _ _) as [ps|] eqn:Eps; simpl; [|done].
    intros [= <-]. simpl. rewrite E. repeat split; [set_solver|].
    exists df. repeat split; [done|]. by apply predict_lstm_dated_after in Eps. }
  destruct (String.eqb_spec (model request) "arima") as [E|_].
  { destruct (predict_arima _ _) as [ps|] eqn:Eps; simpl; [|done].
    intros [= <-]. simpl. rewrite E. repeat split; [set_solver|].
    exists df. repeat split; [done|]. by apply predict_arima_dated_after in Eps. }
  destruct (String.eqb_spec (model request) "linear_regression") as [E|_].
  { destruct (predict_linear_regression _ _) as [ps|] eqn:Eps; simpl; [|done].
    intros [= <-]. simpl. rewrite E. repeat split; [set_solver|].
    exists df. repeat split; [done|].
    by apply predict_linear_regression_dated_after in Eps. }
  done.
Qed.

(** X14.  What a return of the handler [predict_stock] implies (how the
    framework validates the request before the call and serialises the
    returned dict after it is outside the model).  The
    handler returns only for a model name that is one of the five and a
    prepared series of at least 30 rows; the dict it returns echoes the
    symbol and the model name of the request, and its predictions are the
    list the strategy of that name returned on the prepared series and
    the horizon of the request, unchanged. *)
Theorem predict_stock_outcome (request : PredictionRequest) (r : Response) :
  predict_stock to_datetime exn_str NeuralProphet Prophet request = Ok r ->
  r_symbol r = symbol request
  /\ r_model r = model request
  /\ recognized (model request)
  /\ exists df,
       prepare_dataframe to_datetime (historical request) = Ok df
       /\ (30 <= len df)%nat
       /\ (model request = "neural_prophet" ->
           predict_neural_prophet NeuralProphet df (days request)
           = Ok (predictions r))
       /\ (model request = "prophet" ->
           predict_prophet Prophet df (days request) = Ok (predictions r))
       /\ (model request = "lstm" ->
           predict_lstm df (days request) = Ok (predictions r))
       /\ (model request = "arima" ->
           predict_arima df (days request) = Ok (predictions r))
       /\ (model request = "linear_regression" ->
           predict_linear_regression df (days request) = Ok (predictions r)).
Proof.
  unfold predict_stock.
  destruct (predict_stock_try to_datetime NeuralProphet Prophet request)
    as [r'|cause] eqn:E; [|done].
  intros [= <-].
  destruct (predict_stock_try_Ok request r' E) as (Hs & Hm & Hrec & _).
  split; [done|]. split; [done|]. split; [done|].
  revert E. unfold predict_stock_try.
  destruct (prepare_dataframe to_datetime (historical request)) as [df|]; simpl; [|done].
  destruct (Nat.ltb_spec (len df) 30) as [|Hlen]; [done|].
  intros E. exists df. split; [done|]. split; [done|].
  destruct (String.eqb_spec (model request) "neural_prophet") as [E1|_].
  { destruct (predict_neural_prophet _ _ _) as [ps|]; simpl in E; [|done].
    injection E as <-. simpl. rewrite E1. by repeat split. }
  destruct (String.eqb_spec (model request) "prophet") as [E1|_].
  { destruct (predict_prophet _ _ _) as [ps|]; simpl in E; [|done].
    injection E as <-. simpl. rewrite E1. by repeat split. }
  destruct (String.eqb_spec (model request) "lstm") as [E1|_].
  { destruct (predict_lstm _ _) as [ps|]; simpl in E; [|done].
    injection E as <-. simpl. rewrite E1. by repeat split. }
  destruct (String.eqb_spec (model request) "arima") as [E1|_].
  { destruct (predict_arima _ _) as [ps|]; simpl in E; [|done].
    injection E as <-. simpl. rewrite E1. by repeat split. }
  destruct (String.eqb_spec (model request) "linear_regression") as [E1|_].
  { destruct (predict_linear_regression _ _) as [ps|]; simpl in E; [|done].
    injection E as <-. simpl. rewrite E1. by repeat split. }
  done.
Qed.

(** X15.  Whatever strategy and library produced them, the points of a
    successful response are all dated strictly after every dated row of
    the prepared series. *)
Theorem predict_stock_after_history (request : PredictionRequest) (r : Response)
    (df : DataFrame) :
  predict_stock to_datetime exn_str NeuralProphet Prophet request = Ok r ->
  prepare_dataframe to_datetime (historical request) = Ok df ->
  forall p row d,
    p ∈ predictions r -> row ∈ rows df -> date row = TS d -> d < p_date p.
Proof.
  unfold predict_stock.
  destruct (predict_stock_try to_datetime NeuralProphet Prophet request)
    as [r'|] eqn:E; [|done].
  intros [= <-] Hprep p row d Hp Hrow Hd.
  destruct (predict_stock_try_Ok request r' E) as (_ & _ & _ & df' & Hp' & _ & Hafter).
  assert (df' = df) as -> by congruence.
  destruct (Hafter p Hp) as (d0 & Hmax & Hlt).
  apply ts_max_bound in Hmax.
  assert (ts_gtb (date row) (TS d0) = false) as Hle.
  { apply (proj1 (Forall_forall _ _) Hmax). by apply list_elem_of_fmap_2. }
  rewrite Hd in Hle. simpl in Hle. lia.
Qed.

(** X16.  A library that is installed but raises on the frame of the
    request is not an error for the caller: the request for
    "neural_prophet" (or "prophet") then gets exactly what the same
    request for "linear_regression" gets, under the requested name. *)
Theorem predict_stock_runtime_fallback (request : PredictionRequest)
    (m : string) (lib : Forecaster) (df : DataFrame) (e : exn) :
  (m = "neural_prophet" /\ NeuralProphet = Some lib)
  \/ (m = "prophet" /\ Prophet = Some lib) ->
  prepare_dataframe to_datetime (historical request) = Ok df ->
  forecast_with lib df (days request) = Raise e ->
  predict_stock to_datetime exn_str NeuralProphet Prophet (with_model m request)
  = relabel m
      (predict_stock to_datetime exn_str NeuralProphet Prophet
         (with_model "linear_regression" request)).
Proof.
  intros Hm Hprep Hfail. unfold predict_stock, predict_stock_try, with_model. simpl.
  rewrite Hprep. simpl.
  destruct (len df <? 30)%nat; [done|].
  destruct Hm as [[-> Hlib]|[-> Hlib]]; route.
  - unfold predict_neural_prophet. rewrite Hlib, Hfail.
    by destruct (predict_linear_regression df (days request)).
  - unfold predict_prophet. rewrite Hlib, Hfail.
    by destruct (predict_linear_regression df (days request)).
Qed.

End Outcomes.

(** A request for "lstm" on 30 candles. *)
Lemma predict_stock_outcome_witness :
  recognized "lstm"
  /\ exists df,
       prepare_dataframe iso_to_datetime ramp30 = Ok df
       /\ (30 <= len df)%nat
       /\ predict_lstm df 2
          = Ok (predictions
                  (response_of (predict_stock iso_to_datetime py_str None None
                                  (request "lstm" 2 ramp30)))).
Proof.
  destruct (predict_stock_outcome iso_to_datetime py_str None None
              (request "lstm" 2 ramp30)
              (response_of (predict_stock iso_to_datetime py_str None None
                              (request "lstm" 2 ramp30))))
    as (_ & _ & Hrec & df & Hprep & Hlen & _ & _ & Hlstm & _).
  - vm_compute. reflexivity.
  - split; [exact Hrec|]. exists df. split; [exact Hprep|]. split; [exact Hlen|].
    by apply Hlstm.
Defined.

Lemma predict_stock_after_history_witness :
  prepare_dataframe iso_to_datetime flat30 = Ok (frame_of flat30)
  /\ forall p row d,
      p ∈ response_points (predict_stock iso_to_datetime py_str None (Some flat_forecaster)
                             (request "prophet" 3 flat30)) ->
      row ∈ rows (frame_of flat30) -> date row = TS d -> d < p_date p.
Proof.
  split; [vm_compute; reflexivity|].
  apply (predict_stock_after_history iso_to_datetime py_str None (Some flat_forecaster)
           (request "prophet" 3 flat30)
           {| r_symbol := "AAPL"; r_model := "prophet";
              predictions := response_points
                (predict_stock iso_to_datetime py_str None (Some flat_forecaster)
                   (request "prophet" 3 flat30)) |}
           (frame_of flat30)).
  - vm_compute. reflexivity.
  - vm_compute. reflexivity.
Defined.

Lemma predict_stock_runtime_fallback_witness :
  predict_stock iso_to_datetime py_str (Some failing_forecaster) None
    (with_model "neural_prophet" (request "neural_prophet" 2 ramp60))
  = relabel "neural_prophet"
      (predict_stock iso_to_datetime py_str (Some failing_forecaster) None
         (with_model "linear_regression" (request "neural_prophet" 2 ramp60))).
Proof.
  apply (predict_stock_runtime_fallback iso_to_datetime py_str
           (Some failing_forecaster) None (request "neural_prophet" 2 ramp60)
           "neural_prophet" failing_forecaster (frame_of ramp60)
           (LibraryError "fit failed")).
  - left. split; reflexivity.
  - vm_compute. reflexivity.
  - vm_compute. reflexivity.
Defined.

(** * Sorting by date *)

Lemma ts_leb_total (a b : Timestamp) : ts_leb a b = false -> ts_leb b a = true.
Proof. destruct a, b; simpl; try done. lia. Qed.

Lemma ts_leb_trans (a b c : Timestamp) :
  ts_leb a b = true -> ts_leb b c = true -> ts_leb a c = true.
Proof. destruct a, b, c; simpl; try done. lia. Qed.

Lemma ts_leb_antisym (a b : Timestamp) :
  ts_leb a b = true -> ts_leb b a = true -> a = b.
Proof. destruct a, b; simpl; try done. intros. f_equal. lia. Qed.

Lemma insert_row_sorted (r : Row) (l : list Row) :
  StronglySorted date_le l -> StronglySorted date_le (insert_row r l).
Proof.
  induction 1 as [|r' l Hsorted IH Hall]; simpl.
  - by repeat constructor.
  - destruct (ts_leb (date r) (date r')) eqn:E.
    + constructor; [by constructor|]. constructor; [done|].
      eapply Forall_impl; [exact Hall|]. intros x Hx.
      by apply (ts_leb_trans _ (date r')).
    + constructor; [done|]. rewrite insert_row_Permutation.
      constructor; [by apply ts_leb_total|done].
Qed.

Lemma sort_values_sorted (l : list Row) : StronglySorted date_le (sort_values l).
Proof.
  induction l as [|r l IH]; simpl; [constructor|]. by apply insert_row_sorted.
Qed.

Lemma mapM_Forall {A B} (f : A -> result B) (P : B -> Prop) (l : list A) (l' : list B) :
  (forall x y, f x = Ok y -> P y) -> mapM f l = Ok l' -> Forall P l'.
Proof.
  intros Hf. revert l'. induction l as [|x l IH]; intros l'; simpl.
  - intros [= <-]. constructor.
  - destruct (f x) as [y|] eqn:E; simpl; [|done].
    destruct (mapM f l) as [ys|]; simpl; [|done].
    intros [= <-]. constructor; [by apply (Hf x)|by apply IH].
Qed.

Lemma mapM_Permutation {A B} (f : A -> result B) (l l' : list A) (rs : list B) :
  l ≡ₚ l' -> mapM f l = Ok rs -> exists rs', mapM f l' = Ok rs' /\ rs ≡ₚ rs'.
Proof.
  intros Hperm. revert rs.
  induction Hperm as [|x l l' _ IH|x y l|l1 l2 l3 _ IH1 _ IH2]; intros rs; simpl.
  - intros [= <-]. by exists [].
  - destruct (f x) as [b|]; simpl; [|done].
    destruct (mapM f l) as [bs|]; simpl; [|done].
    intros [= <-]. destruct (IH bs eq_refl) as (bs' & -> & Hbs). simpl.
    exists (b :: bs'). by rewrite Hbs.
  - destruct (f y) as [b|]; simpl; [|done].
    destruct (f x) as [a|]; simpl; [|done].
    destruct (mapM f l) as [bs|]; simpl; [|done].
    intros [= <-]. exists (a :: b :: bs). split; [done|]. apply Permutation_swap.
  - intros H1. destruct (IH1 rs H1) as (rs2 & H2 & Hp12).
    destruct (IH2 rs2 H2) as (rs3 & H3 & Hp23).
    exists rs3. split; [done|]. by rewrite Hp12.
Qed.

Lemma NoDup_fmap_eq {A B} (f : A -> B) (l : list A) (x y : A) :
  NoDup (f <$> l) -> x ∈ l -> y ∈ l -> f x = f y -> x = y.
Proof.
  induction l as [|z l IH]; csimpl; intros Hnd Hx Hy Hf; [by apply elem_of_nil in Hx|].
  apply NoDup_cons in Hnd as [Hz Hnd].
  apply elem_of_cons in Hx as [->|Hx]; apply elem_of_cons in Hy as [->|Hy].
  - done.
  - exfalso. apply Hz. rewrite Hf. by apply list_elem_of_fmap_2.
  - exfalso. apply Hz. rewrite <- Hf. by apply list_elem_of_fmap_2.
  - by apply IH.
Qed.

Section Sorting.

Variable to_datetime : value -> option Z.
Variable exn_str : exn -> string.
Variable NeuralProphet : option Forecaster.
Variable Prophet : option Forecaster.

(** X17.  A prepared frame holds every input record exactly once (nothing
    is dropped, duplicates are kept), each row dated with the converted
    date cell of its record, and its rows are in ascending order of date
    with the undated rows last. *)
Theorem prepare_dataframe_sorted (h : list (gmap string value)) (df : DataFrame) :
  prepare_dataframe to_datetime h = Ok df ->
  StronglySorted date_le (rows df)
  /\ record <$> rows df ≡ₚ h
  /\ len df = length h
  /\ Forall (fun r => to_datetime_cell to_datetime (record r !! "date") = Ok (date r))
       (rows df).
Proof.
  intros Hprep. destruct (prepare_dataframe_Ok _ _ _ Hprep) as [_ Hperm].
  revert Hprep. unfold prepare_dataframe. destruct (decide _) as [_|]; [|done].
  destruct (mapM _ h) as [rs|] eqn:E; simpl; [|done].
  intros [= <-]. simpl in *. repeat split.
  - apply sort_values_sorted.
  - done.
  - unfold len. simpl. apply Permutation_length in Hperm.
    by rewrite length_fmap in Hperm.
  - rewrite sort_values_Permutation.
    eapply mapM_Forall; [|exact E]. intros r row. simpl.
    destruct (to_datetime_cell to_datetime (r !! "date")) as [d|] eqn:Ed;
      simpl; [|done].
    by intros [= <-].
Qed.

(** X18.  When the dates of the prepared series are pairwise distinct,
    the order in which the caller lists the historical records does not
    matter: any reordering of them is prepared to the same frame, and the
    response of [predict_stock] is the same. *)
Theorem predict_stock_order_independent (request : PredictionRequest)
    (h' : list (gmap string value)) (df : DataFrame) :
  prepare_dataframe to_datetime (historical request) = Ok df ->
  historical request ≡ₚ h' ->
  NoDup (date <$> rows df) ->
  prepare_dataframe to_datetime h' = Ok df
  /\ predict_stock to_datetime exn_str NeuralProphet Prophet
       (with_historical h' request)
     = predict_stock to_datetime exn_str NeuralProphet Prophet request.
Proof.
  intros Hprep Hperm Hnd.
  assert (prepare_dataframe to_datetime h' = Ok df) as Hprep'.
  { revert Hprep. unfold prepare_dataframe.
    assert ((⋃ (dom <$> h') : gset string) = ⋃ (dom <$> historical request)) as ->
      by (by rewrite Hperm).
    destruct (decide _) as [_|]; [|done].
    destruct (mapM _ (historical request)) as [rs|] eqn:E; simpl; [|done].
    destruct (mapM_Permutation _ _ _ _ Hperm E) as (rs' & -> & Hrs).
    intros [= <-]. simpl in *. do 2 f_equal.
    apply (StronglySorted_unique_strong date_le);
      [|apply sort_values_sorted..|by rewrite !sort_values_Permutation].
    intros x1 x2 Hx1 Hx2 H12 H21.
    apply (NoDup_fmap_eq date (sort_values rs)); [done| |done|].
    - by rewrite sort_values_Permutation, Hrs, <- sort_values_Permutation.
    - by apply ts_leb_antisym. }
  split; [done|].
  unfold predict_stock, predict_stock_try, with_historical. simpl.
  by rewrite Hprep, Hprep'.
Qed.

End Sorting.

Lemma ramp30_dates : date <$> rows (frame_of ramp30) = TS <$> seqZ 19723 30.
Proof. vm_compute. reflexivity. Qed.

Lemma prepare_dataframe_sorted_witness :
  StronglySorted date_le (rows (frame_of ramp30_reversed))
  /\ record <$> rows (frame_of ramp30_reversed) ≡ₚ ramp30_reversed
  /\ len (frame_of ramp30_reversed) = length ramp30_reversed
  /\ Forall (fun r => to_datetime_cell iso_to_datetime (record r !! "date")
                      = Ok (date r))
       (rows (frame_of ramp30_reversed)).
Proof.
  apply (prepare_dataframe_sorted iso_to_datetime ramp30_reversed
           (frame_of ramp30_reversed)).
  vm_compute. reflexivity.
Defined.

Lemma predict_stock_order_independent_witness :
  prepare_dataframe iso_to_datetime ramp30_reversed = Ok (frame_of ramp30)
  /\ predict_stock iso_to_datetime py_str None None
       (with_historical ramp30_reversed (request "lstm" 3 ramp30))
     = predict_stock iso_to_datetime py_str None None (request "lstm" 3 ramp30).
Proof.
  apply (predict_stock_order_independent iso_to_datetime py_str None None
           (request "lstm" 3 ramp30) ramp30_reversed (frame_of ramp30)).
  - vm_compute. reflexivity.
  - symmetry. apply reverse_Permutation.
  - rewrite ramp30_dates. apply NoDup_fmap_2; [apply _|apply NoDup_seqZ].
Defined.

(** * The market-data endpoints *)

Lemma getitem_spec {A} (l : list A) (i : Z) :
  0 <= i ->
  getitem l i = match l !! Z.to_nat i with
                | Some x => Ok x
                | None => Raise IndexError
                end.
Proof.
  intros Hi. unfold getitem.
  destruct (Z.ltb_spec i 0); [lia|].
  destruct (Z.leb_spec 0 i); [|lia].
  destruct (Z.ltb_spec i (Z.of_nat (length l))); simpl; [done|].
  by rewrite (proj2 (lookup_ge_None l (Z.to_nat i))) by lia.
Qed.

Lemma mapM_lookup {A B} (f : A -> result B) (l : list A) (l' : list B) :
  mapM f l = Ok l' ->
  forall i y, l' !! i = Some y -> exists x, l !! i = Some x /\ f x = Ok y.
Proof.
  revert l'. induction l as [|x l IH]; intros l'; simpl.
  - intros [= <-] i y Hy. done.
  - destruct (f x) as [b|] eqn:E; simpl; [|done].
    destruct (mapM f l) as [bs|]; simpl; [|done].
    intros [= <-] [|i] y Hy; simpl in *.
    + injection Hy as <-. by exists x.
    + by apply (IH bs).
Qed.

Lemma mapM_succeeds {A B} (f : A -> result B) (l : list A) :
  Forall (fun x => exists y, f x = Ok y) l -> exists l', mapM f l = Ok l'.
Proof.
  induction 1 as [|x l [y Hy] _ [l' IH]]; simpl; [by eexists|].
  rewrite Hy, IH. by eexists.
Qed.

(** When every element either succeeds or raises [e], and one raises,
    the whole loop raises [e]. *)
Lemma mapM_raises {A B} (f : A -> result B) (e : exn) (l : list A) :
  Forall (fun x => (exists y, f x = Ok y) \/ f x = Raise e) l ->
  Exists (fun x => f x = Raise e) l ->
  mapM f l = Raise e.
Proof.
  induction 1 as [|x l Hx _ IH]; intros Hex; [by inversion Hex|].
  simpl. destruct Hx as [[y Hy]| ->]; [|done].
  rewrite Hy. simpl. apply Exists_cons in Hex as [Hex|Hex]; [congruence|].
  by rewrite (IH Hex).
Qed.

Section HistoricalProperties.

Variable exn_str : exn -> string.
Variable fromtimestamp : Qc -> result string.
Variable stock_candles : string -> string -> Z -> Z -> result StockCandles.
Variable start_ts : Z.
Variable end_ts : Z.

(** What the dict built for an index in range is. *)
Lemma historical_record_Ok (res : StockCandles) (i : nat) (rec : gmap string value) :
  historical_record fromtimestamp res (Z.of_nat i) = Ok rec ->
  exists q d oi hi li ci vi,
    column_at (res_t res) i = Some (VNum q)
    /\ fromtimestamp q = Ok d
    /\ column_at (res_o res) i = Some oi
    /\ column_at (res_h res) i = Some hi
    /\ column_at (res_l res) i = Some li
    /\ column_at (res_c res) i = Some ci
    /\ column_at (res_v res) i = Some vi
    /\ rec = {[ "date" := VStr d; "open" := oi; "high" := hi;
                "low" := li; "close" := ci; "volume" := vi ]}.
Proof.
  unfold historical_record, column_at.
  destruct (res_t res) as [t|]; simpl; [|done].
  rewrite getitem_spec, Nat2Z.id by lia.
  destruct (t !! i) as [ti|]; simpl; [|done].
  destruct ti as [q| |]; simpl; [|done..].
  destruct (fromtimestamp q) as [d|] eqn:Ed; simpl; [|done].
  destruct (res_o res) as [o|]; simpl; [|done].
  rewrite getitem_spec, Nat2Z.id by lia.
  destruct (o !! i) as [oi|]; simpl; [|done].
  destruct (res_h res) as [h|]; simpl; [|done].
  rewrite getitem_spec, Nat2Z.id by lia.
  destruct (h !! i) as [hi|]; simpl; [|done].
  destruct (res_l res) as [l|]; simpl; [|done].
  rewrite getitem_spec, Nat2Z.id by lia.
  destruct (l !! i) as [li|]; simpl; [|done].
  destruct (res_c res) as [c|]; simpl; [|done].
  rewrite getitem_spec, Nat2Z.id by lia.
  destruct (c !! i) as [ci|]; simpl; [|done].
  destruct (res_v res) as [v|]; simpl; [|done].
  rewrite getitem_spec, Nat2Z.id by lia.
  destruct (v !! i) as [vi|]; simpl; [|done].
  intros [= <-]. by exists q, d, oi, hi, li, ci, vi.
Qed.

(** What a success of the [try] block of [get_historical_data] means. *)
Lemma get_historical_data_try_Ok (symbol : string) (r : HistoricalResponse) :
  get_historical_data_try fromtimestamp stock_candles start_ts end_ts symbol = Ok r ->
  exists res t,
    stock_candles symbol "D" start_ts end_ts = Ok res
    /\ res_s res = Some "ok"
    /\ res_t res = Some t
    /\ h_symbol r = symbol
    /\ length (h_historical r) = length t
    /\ forall i rec, h_historical r !! i = Some rec ->
         historical_record fromtimestamp res (Z.of_nat i) = Ok rec.
Proof.
  unfold get_historical_data_try.
  destruct (stock_candles symbol "D" start_ts end_ts) as [res|]; simpl; [|done].
  destruct (res_s res) as [s|] eqn:Es; simpl; [|done].
  destruct (String.eqb_spec s "ok") as [->|]; simpl; [|done].
  destruct (res_t res) as [t|] eqn:Et; simpl; [|done].
  destruct (mapM _ _) as [hist|] eqn:Eh; simpl; [|done].
  intros [= <-]. exists res, t. simpl. repeat split; try done.
  - apply mapM_length in Eh. by rewrite Eh, range_0, length_seqZ, Nat2Z.id.
  - intros i rec Hrec.
    destruct (mapM_lookup _ _ _ Eh i rec Hrec) as (k & Hk & Hok).
    rewrite range_0 in Hk. apply lookup_seqZ in Hk as [-> _].
    by rewrite Z.add_0_l in Hok.
Qed.

(** X19.  A reply whose status is not "ok" makes [get_historical_data]
    raise [HTTPException(status_code=404)] inside its [try] block, and
    the [except Exception] clause turns it into status 500: the caller
    never sees the 404. *)
Theorem get_historical_data_no_data (symbol st : string) (res : StockCandles) :
  stock_candles symbol "D" start_ts end_ts = Ok res ->
  res_s res = Some st ->
  st <> "ok" ->
  get_historical_data_try fromtimestamp stock_candles start_ts end_ts symbol
  = Raise (HTTPException 404 "No data found")
  /\ get_historical_data exn_str fromtimestamp stock_candles start_ts end_ts symbol
     = Raise (HTTPException 500 (exn_str (HTTPException 404 "No data found"))).
Proof.
  intros Hres Hs Hst.
  assert (get_historical_data_try fromtimestamp stock_candles start_ts end_ts symbol
          = Raise (HTTPException 404 "No data found")) as Htry.
  { unfold get_historical_data_try. rewrite Hres. simpl. rewrite Hs. simpl.
    by destruct (String.eqb_spec st "ok"). }
  split; [done|]. unfold get_historical_data. by rewrite Htry.
Qed.

(** X20.  A successful [get_historical_data] echoes the symbol and
    returns one record per stamp of [t], in order; record [i] holds
    entry [i] of each of the arrays [o], [h], [l], [c], [v] under the
    keys open, high, low, close, volume, and the date of stamp [i],
    which is a number, under the key date. *)
Theorem get_historical_data_records (symbol : string) (r : HistoricalResponse) :
  get_historical_data exn_str fromtimestamp stock_candles start_ts end_ts symbol
  = Ok r ->
  exists res t,
    stock_candles symbol "D" start_ts end_ts = Ok res
    /\ res_s res = Some "ok"
    /\ res_t res = Some t
    /\ h_symbol r = symbol
    /\ length (h_historical r) = length t
    /\ forall i rec, h_historical r !! i = Some rec ->
         exists q d oi hi li ci vi,
           column_at (res_t res) i = Some (VNum q)
           /\ fromtimestamp q = Ok d
           /\ column_at (res_o res) i = Some oi
           /\ column_at (res_h res) i = Some hi
           /\ column_at (res_l res) i = Some li
           /\ column_at (res_c res) i = Some ci
           /\ column_at (res_v res) i = Some vi
           /\ rec = {[ "date" := VStr d; "open" := oi; "high" := hi;
                       "low" := li; "close" := ci; "volume" := vi ]}.
Proof.
  unfold get_historical_data.
  destruct (get_historical_data_try _ _ _ _ symbol) as [r'|] eqn:E; [|done].
  intros [= <-].
  destruct (get_historical_data_try_Ok symbol r' E)
    as (res & t & Hres & Hs & Ht & Hsym & Hlen & Hrec).
  exists res, t. repeat split; try done.
  intros i rec Hi. by apply historical_record_Ok, Hrec.
Qed.

(** With every array present and every stamp dated, the dict for an
    index below [len(t)] is built or the loop stops on [IndexError]. *)
Lemma historical_record_cases (res : StockCandles) (t o h l c v : list value)
    (k : nat) :
  res_t res = Some t -> res_o res = Some o -> res_h res = Some h ->
  res_l res = Some l -> res_c res = Some c -> res_v res = Some v ->
  stamps_dated fromtimestamp t ->
  (k < length t)%nat ->
  (exists rec, historical_record fromtimestamp res (Z.of_nat k) = Ok rec)
  \/ historical_record fromtimestamp res (Z.of_nat k) = Raise IndexError.
Proof.
  intros Ht Ho Hh Hl Hc Hv Hst Hk. unfold historical_record.
  rewrite Ht, Ho, Hh, Hl, Hc, Hv. cbn [item bind].
  rewrite !getitem_spec, !Nat2Z.id by lia.
  destruct (lookup_lt_is_Some_2 t k Hk) as [ti Hti]. rewrite Hti. cbn [bind].
  destruct (proj1 (Forall_forall _ _) Hst ti) as (q & d & -> & Hd).
  { apply list_elem_of_lookup. by exists k. }
  simpl. rewrite Hd. cbn [bind].
  destruct (o !! k); cbn [bind]; [|by right].
  destruct (h !! k); cbn [bind]; [|by right].
  destruct (l !! k); cbn [bind]; [|by right].
  destruct (c !! k); cbn [bind]; [|by right].
  destruct (v !! k); cbn [bind]; [|by right].
  left. by eexists.
Qed.

(** X21.  With status "ok", the seven keys present and every stamp
    dated, [get_historical_data] succeeds exactly when each of the arrays
    [o], [h], [l], [c], [v] has at least as many entries as [t]; an array
    that is shorter is not cut to: the loop raises [IndexError] and the
    caller gets status 500.  Entries beyond [len(t)] are ignored. *)
Theorem get_historical_data_array_lengths (symbol : string) (res : StockCandles)
    (t o h l c v : list value) :
  stock_candles symbol "D" start_ts end_ts = Ok res ->
  res_s res = Some "ok" ->
  res_t res = Some t -> res_o res = Some o -> res_h res = Some h ->
  res_l res = Some l -> res_c res = Some c -> res_v res = Some v ->
  stamps_dated fromtimestamp t ->
  let enough :=
    (length t <= length o /\ length t <= length h /\ length t <= length l
     /\ length t <= length c /\ length t <= length v)%nat in
  (enough ->
   exists r,
     get_historical_data exn_str fromtimestamp stock_candles start_ts end_ts symbol
     = Ok r)
  /\ (~ enough ->
      get_historical_data exn_str fromtimestamp stock_candles start_ts end_ts symbol
      = Raise (HTTPException 500 (exn_str IndexError))).
Proof.
  intros Hres Hs Ht Ho Hh Hl Hc Hv Hst enough.
  assert (Hcases := fun k => historical_record_cases res t o h l c v k
                               Ht Ho Hh Hl Hc Hv Hst).
  unfold get_historical_data, get_historical_data_try.
  rewrite Hres. cbn [bind]. rewrite Hs. cbn [item bind]. simpl negb. cbv iota.
  rewrite Ht. cbn [item bind]. rewrite range_0.
  split.
  - intros (Ho' & Hh' & Hl' & Hc' & Hv').
    destruct (mapM_succeeds (historical_record fromtimestamp res)
                (seqZ 0 (Z.of_nat (length t)))) as [hist ->]; [|by eexists].
    apply Forall_seqZ. intros i Hi.
    replace i with (Z.of_nat (Z.to_nat i)) by lia.
    destruct (Hcases (Z.to_nat i)) as [Hok|Hbad]; [lia|done|].
    exfalso. revert Hbad. unfold historical_record.
    rewrite Ht, Ho, Hh, Hl, Hc, Hv. cbn [item bind].
    rewrite !getitem_spec, !Nat2Z.id by lia.
    destruct (lookup_lt_is_Some_2 t (Z.to_nat i)) as [ti Hti]; [lia|].
    rewrite Hti. cbn [bind].
    destruct (proj1 (Forall_forall _ _) Hst ti) as (q & d & -> & Hd).
    { apply list_elem_of_lookup. by eexists. }
    simpl. rewrite Hd. cbn [bind].
    destruct (lookup_lt_is_Some_2 o (Z.to_nat i)) as [? ->]; [lia|].
    destruct (lookup_lt_is_Some_2 h (Z.to_nat i)) as [? ->]; [lia|].
    destruct (lookup_lt_is_Some_2 l (Z.to_nat i)) as [? ->]; [lia|].
    destruct (lookup_lt_is_Some_2 c (Z.to_nat i)) as [? ->]; [lia|].
    destruct (lookup_lt_is_Some_2 v (Z.to_nat i)) as [? ->]; [lia|].
    done.
  - intros Hshort.
    rewrite (mapM_raises _ IndexError); [done| |].
    + apply Forall_seqZ. intros i Hi.
      replace i with (Z.of_nat (Z.to_nat i)) by lia. apply Hcases. lia.
    + assert (exists k, (k < length t)%nat
                /\ (o !! k = None \/ h !! k = None \/ l !! k = None
                    \/ c !! k = None \/ v !! k = None)) as (k & Hk & Hnone).
      { unfold enough in Hshort.
        destruct (decide (length t <= length o)%nat);
          [|exists (length o); split; [lia|left; apply lookup_ge_None; lia]].
        destruct (decide (length t <= length h)%nat);
          [|exists (length h); split; [lia|right; left; apply lookup_ge_None; lia]].
        destruct (decide (length t <= length l)%nat);
          [|exists (length l); split; [lia|do 2 right; left; apply lookup_ge_None; lia]].
        destruct (decide (length t <= length c)%nat);
          [|exists (length c); split; [lia|do 3 right; left; apply lookup_ge_None; lia]].
        destruct (decide (length t <= length v)%nat);
          [|exists (length v); split; [lia|do 4 right; apply lookup_ge_None; lia]].
        tauto. }
      apply Exists_exists. exists (Z.of_nat k). split.
      { apply elem_of_seqZ. lia. }
      destruct (Hcases k Hk) as [[rec Hrec]|Hbad]; [|done].
      exfalso. apply historical_record_Ok in Hrec
        as (q & d & oi & hi & li & ci & vi & _ & _ & Hoi & Hhi & Hli & Hci & Hvi & _).
      rewrite Ho in Hoi. rewrite Hh in Hhi. rewrite Hl in Hli.
      rewrite Hc in Hci. rewrite Hv in Hvi. simpl in *.
      destruct Hnone as [H|[H|[H|[H|H]]]]; congruence.
Qed.

(** X22.  What [get_historical_data] returns is what [prepare_dataframe]
    accepts: when the date parser reads the dates that were printed, a
    returned list that is not empty is prepared without error into a
    frame with as many rows and with a close column; the empty list,
    which a reply with status "ok" and no stamps gives, is refused with
    [KeyError] on the date column. *)
Theorem get_historical_data_then_prepare (to_datetime : value -> option Z)
    (symbol : string) (r : HistoricalResponse) :
  get_historical_data exn_str fromtimestamp stock_candles start_ts end_ts symbol
  = Ok r ->
  Forall (fun rec : gmap string value =>
            forall d, rec !! "date" = Some (VStr d) -> is_Some (to_datetime (VStr d)))
    (h_historical r) ->
  (h_historical r = [] ->
   prepare_dataframe to_datetime (h_historical r) = Raise (KeyError "date"))
  /\ (h_historical r <> [] ->
      exists df,
        prepare_dataframe to_datetime (h_historical r) = Ok df
        /\ len df = length (h_historical r)
        /\ "close" ∈ columns df).
Proof.
  unfold get_historical_data.
  destruct (get_historical_data_try _ _ _ _ symbol) as [r'|] eqn:E; [|done].
  intros [= <-] Hparse.
  destruct (get_historical_data_try_Ok symbol r' E) as (res & t & _ & _ & _ & _ & _ & Hrec).
  assert (Hshape : Forall (fun rec : gmap string value =>
            exists q d ci, fromtimestamp q = Ok d
              /\ rec !! "date" = Some (VStr d) /\ rec !! "close" = Some ci)
            (h_historical r')).
  { apply Forall_lookup. intros i rec Hi.
    apply Hrec, historical_record_Ok in Hi
      as (q & d & oi & hi & li & ci & vi & _ & Hd & _ & _ & _ & _ & _ & ->).
    exists q, d, ci. repeat split; [done|..]; by simplify_map_eq. }
  split.
  - intros ->. unfold prepare_dataframe.
    destruct (decide _) as [Hd|_]; [|done]. csimpl in Hd. set_solver.
  - intros Hne.
    destruct (prepare_dataframe to_datetime (h_historical r')) as [df|e] eqn:Ep.
    + exists df. destruct (prepare_dataframe_Ok _ _ _ Ep) as [Hcols Hperm].
      split; [done|]. split.
      * unfold len. apply Permutation_length in Hperm.
        by rewrite length_fmap in Hperm.
      * rewrite Hcols. destruct (h_historical r') as [|rec hist]; [done|].
        apply Forall_cons in Hshape as [(q & d & ci & _ & _ & Hci) _].
        apply elem_of_union_list. exists (dom rec). split; [csimpl; left|].
        apply elem_of_dom. by eexists.
    + exfalso.
      assert (fails (prepare_dataframe to_datetime (h_historical r'))) as Hf
        by (by eexists).
      apply prepare_dataframe_fails in Hf as [Hcol|Hbad].
      * apply Hcol. destruct (h_historical r') as [|rec hist]; [done|].
        apply Forall_cons in Hshape as [(q & d & ci & _ & Hd & _) _].
        apply elem_of_union_list. exists (dom rec). split; [csimpl; left|].
        apply elem_of_dom. by eexists.
      * apply Exists_exists in Hbad as (rec & Hin & v & Hv & _ & Hnone).
        pose proof (proj1 (Forall_forall _ _) Hparse rec Hin) as Hread.
        apply (proj1 (Forall_forall _ _) Hshape) in Hin as (q & d & ci & Hd & Hdate & _).
        rewrite Hdate in Hv. injection Hv as <-.
        destruct (Hread d Hdate) as [x Hx]. congruence.
Qed.

End HistoricalProperties.

Lemma first_missing_cons (q : gmap string value) (key : string) (keys : list string) :
  first_missing q (key :: keys)
  = match q !! key with
    | None => Some key
    | Some _ => first_missing q keys
    end.
Proof.
  unfold first_missing. simpl.
  case_bool_decide as H; [by rewrite H|]. by destruct (q !! key).
Qed.

Section PriceProperties.

Variable exn_str : exn -> string.
Variable quote : string -> result (gmap string value).
Variable now_isoformat : string.

(** X23.  The two outcomes of the handler [get_current_price].  It
    returns when the quote has the three keys c, d and dp, and the dict
    echoes the symbol and copies those entries.  Otherwise it raises an
    [HTTPException] with status 500 whose detail is the text of the
    client's exception or of the [KeyError] on the first of the keys c, d,
    dp, in that order, that the quote lacks. *)
Theorem get_current_price_outcome (symbol : string) :
  match get_current_price exn_str quote now_isoformat symbol with
  | Ok r =>
    exists q,
      quote symbol = Ok q
      /\ first_missing q ["c"; "d"; "dp"] = None
      /\ q !! "c" = Some (q_price r)
      /\ q !! "d" = Some (q_change r)
      /\ q !! "dp" = Some (q_percent_change r)
      /\ q_symbol r = symbol
      /\ q_timestamp r = now_isoformat
  | Raise e =>
    exists cause,
      e = HTTPException 500 (exn_str cause)
      /\ (quote symbol = Raise cause
          \/ exists q key,
               quote symbol = Ok q
               /\ first_missing q ["c"; "d"; "dp"] = Some key
               /\ q !! key = None
               /\ cause = KeyError key)
  end.
Proof.
  unfold get_current_price, get_current_price_try, dict_item.
  destruct (quote symbol) as [q|cause]; cbn [bind]; [|exists cause; by split; [|left]].
  destruct (q !! "c") as [c|] eqn:Ec; cbn [bind].
  2:{ exists (KeyError "c"). split; [done|]. right. exists q, "c".
      by rewrite first_missing_cons, Ec. }
  destruct (q !! "d") as [d|] eqn:Ed; cbn [bind].
  2:{ exists (KeyError "d"). split; [done|]. right. exists q, "d".
      by rewrite !first_missing_cons, Ec, Ed. }
  destruct (q !! "dp") as [dp|] eqn:Edp; cbn [bind].
  2:{ exists (KeyError "dp"). split; [done|]. right. exists q, "dp".
      by rewrite !first_missing_cons, Ec, Ed, Edp. }
  exists q. by rewrite !first_missing_cons, Ec, Ed, Edp.
Qed.

End PriceProperties.

Lemma get_historical_data_no_data_witness :
  get_historical_data_try utc_date demo_candles 1672531200 1704067200 "XYZ"
  = Raise (HTTPException 404 "No data found")
  /\ demo_history "XYZ" = Raise (HTTPException 500 "404: No data found").
Proof.
  apply (get_historical_data_no_data http_str utc_date demo_candles
           1672531200 1704067200 "XYZ" "no_data" no_data).
  - reflexivity.
  - reflexivity.
  - discriminate.
Defined.

Lemma get_historical_data_records_witness :
  exists res t,
    demo_candles "AAPL" "D" 1672531200 1704067200 = Ok res
    /\ res_s res = Some "ok"
    /\ res_t res = Some t
    /\ h_symbol (history_of (demo_history "AAPL")) = "AAPL"
    /\ length (h_historical (history_of (demo_history "AAPL"))) = length t
    /\ forall i rec, h_historical (history_of (demo_history "AAPL")) !! i = Some rec ->
         exists q d oi hi li ci vi,
           column_at (res_t res) i = Some (VNum q)
           /\ utc_date q = Ok d
           /\ column_at (res_o res) i = Some oi
           /\ column_at (res_h res) i = Some hi
           /\ column_at (res_l res) i = Some li
           /\ column_at (res_c res) i = Some ci
           /\ column_at (res_v res) i = Some vi
           /\ rec = {[ "date" := VStr d; "open" := oi; "high" := hi;
                       "low" := li; "close" := ci; "volume" := vi ]}.
Proof.
  apply (get_historical_data_records http_str utc_date demo_candles
           1672531200 1704067200 "AAPL" (history_of (demo_history "AAPL"))).
  vm_compute. reflexivity.
Defined.

Lemma three_stamps_dated : stamps_dated utc_date (nums [1704067200; 1704153600; 1704240000]).
Proof.
  repeat constructor; eexists _, _; (split; [reflexivity|vm_compute; reflexivity]).
Qed.

Lemma get_historical_data_array_lengths_witness :
  demo_history "SHORT" = Raise (HTTPException 500 "").
Proof.
  apply (proj2 (get_historical_data_array_lengths http_str utc_date demo_candles
                  1672531200 1704067200 "SHORT" short_closes
                  (nums [1704067200; 1704153600; 1704240000])
                  (nums [10; 11; 12]) (nums [12; 13; 14]) (nums [9; 10; 11])
                  (nums [11; 12]) (nums [1000; 1100; 1200])
                  eq_refl eq_refl eq_refl eq_refl eq_refl eq_refl eq_refl eq_refl
                  three_stamps_dated)).
  simpl. lia.
Defined.

Lemma get_historical_data_then_prepare_witness :
  (h_historical (history_of (demo_history "AAPL")) = [] ->
   prepare_dataframe iso_to_datetime (h_historical (history_of (demo_history "AAPL")))
   = Raise (KeyError "date"))
  /\ (h_historical (history_of (demo_history "AAPL")) <> [] ->
      exists df,
        prepare_dataframe iso_to_datetime (h_historical (history_of (demo_history "AAPL")))
        = Ok df
        /\ len df = length (h_historical (history_of (demo_history "AAPL")))
        /\ "close" ∈ columns df).
Proof.
  apply (get_historical_data_then_prepare http_str utc_date demo_candles
           1672531200 1704067200 iso_to_datetime "AAPL"
           (history_of (demo_history "AAPL"))).
  - vm_compute. reflexivity.
  - repeat constructor; intros d Hd; vm_compute in Hd; injection Hd as <-;
      vm_compute; by eexists.
Defined.

(** * A history without closes *)

Lemma close_values_missing (df : DataFrame) :
  "close" ∉ columns df -> close_values df = Raise (KeyError "close").
Proof. intros H. unfold close_values. by destruct (decide _). Qed.

Lemma predict_linear_regression_missing_column (df : DataFrame) (days : Z) :
  "close" ∉ columns df ->
  predict_linear_regression df days = Raise (KeyError "close").
Proof.
  intros H. unfold predict_linear_regression.
  by rewrite (close_values_missing (tail 60 df)).
Qed.

Section MissingColumn.

Variable to_datetime : value -> option Z.
Variable exn_str : exn -> string.
Variable NeuralProphet : option Forecaster.
Variable Prophet : option Forecaster.

(** X24.  When no historical record has a close field, every one of the
    five models fails on the missing column: the [try] block ends with
    [KeyError] on close (also for an installed library, whose failure
    falls back to the regression, which fails the same way), and the
    caller gets status 500. *)
Theorem predict_stock_without_closes (request : PredictionRequest) (df : DataFrame) :
  prepare_dataframe to_datetime (historical request) = Ok df ->
  (30 <= len df)%nat ->
  recognized (model request) ->
  Forall (fun r : gmap string value => r !! "close" = None) (historical request) ->
  predict_stock_try to_datetime NeuralProphet Prophet request
  = Raise (KeyError "close")
  /\ predict_stock to_datetime exn_str NeuralProphet Prophet request
     = Raise (HTTPException 500 (exn_str (KeyError "close"))).
Proof.
  intros Hprep Hlen Hrec Hnone.
  destruct (prepare_dataframe_Ok _ _ _ Hprep) as [Hcols _].
  assert (Hcol : "close" ∉ columns df).
  { rewrite Hcols. intros Hin.
    apply elem_of_union_list in Hin as (X & HX & Hin).
    apply list_elem_of_fmap in HX as (r & -> & Hr).
    apply elem_of_dom in Hin as [v Hv].
    apply (proj1 (Forall_forall _ _) Hnone) in Hr. congruence. }
  pose proof (predict_linear_regression_missing_column df (days request) Hcol) as Hlr.
  assert (forall lib,
            match lib with
            | None => predict_linear_regression df (days request)
            | Some l =>
              match forecast_with l df (days request) with
              | Ok predictions => Ok predictions
              | Raise e => predict_linear_regression df (days request)
              end
            end = Raise (KeyError "close")) as Hadv.
  { intros [l|]; [|done]. unfold forecast_with, date_close.
    by destruct (decide _). }
  assert (predict_stock_try to_datetime NeuralProphet Prophet request
          = Raise (KeyError "close")) as Htry.
  { unfold predict_stock_try. rewrite Hprep. simpl bind.
    destruct (Nat.ltb_spec (len df) 30) as [|_]; [lia|].
    unfold recognized in Hrec. rewrite !elem_of_cons in Hrec.
    destruct Hrec as [H|[H|[H|[H|[H|H]]]]];
      [..|by apply elem_of_nil in H]; rewrite H; route.
    - unfold predict_neural_prophet. by rewrite Hadv.
    - unfold predict_prophet. by rewrite Hadv.
    - unfold predict_lstm. by rewrite close_values_missing.
    - unfold predict_arima. by rewrite close_values_missing.
    - by rewrite Hlr. }
  split; [done|]. unfold predict_stock. by rewrite Htry.
Qed.

End MissingColumn.

Lemma predict_stock_without_closes_witness :
  predict_stock_try iso_to_datetime None (Some flat_forecaster)
    (request "prophet" 5 (closeless 30))
  = Raise (KeyError "close")
  /\ predict_stock iso_to_datetime py_str None (Some flat_forecaster)
       (request "prophet" 5 (closeless 30))
     = Raise (HTTPException 500 "'close'").
Proof.
  apply (predict_stock_without_closes iso_to_datetime py_str None (Some flat_forecaster)
           (request "prophet" 5 (closeless 30)) (frame_of (closeless 30))).
  - vm_compute. reflexivity.
  - vm_compute. lia.
  - unfold recognized. simpl. set_solver.
  - unfold closeless. apply Forall_fmap, Forall_forall. intros k _. simpl.
    by rewrite lookup_insert_ne, lookup_singleton_ne.
Defined.
